(** * ccda-bb: section dispatch and whole-document assembly

    A shallow embedding of [index.js]: the section registry [sectionNames],
    the single-section entry point [gen] and the whole-document entry point
    [genWholeCCDA], followed by the properties of the dispatch and assembly
    logic.

    The libxmljs document is an explicit store threaded through a small
    state-and-exception monad; node references are paths into that store.
    The modules [index.js] merely calls (the five section generators, the
    template filler [js2xml.fillUsingTemplate], the id-block generator
    [libCCDAGen.id]) are parameters of the development, collected in the
    record [Library]; every call to one of them is recorded in a call log
    next to the document. *)

From Stdlib Require Import String ZArith DecimalString.
From stdpp Require Import base list.

Local Open Scope string_scope.
Local Open Scope list_scope.

Set Warnings "-register-all".

(** ** JSON input values *)

(** The values a parsed JSON record is made of, plus [undefined], which is
    what reading a missing property yields.  Numbers matter to this program
    only through their truthiness, so they are integers here.  An object is
    the list of its own properties in enumeration order; reading a property
    takes the first binding of the key. *)
Inductive value : Type :=
| VUndefined
| VNull
| VBool (b : bool)
| VNum (n : Z)
| VStr (s : string)
| VArr (items : list value)
| VObj (props : list (string * value)).

(** [if (v)]: the falsy values are undefined, null, false, 0 and the empty
    string; arrays and objects are truthy even when empty. *)
Definition truthy (v : value) : bool :=
  match v with
  | VUndefined | VNull => false
  | VBool b => b
  | VNum n => negb (n =? 0)%Z
  | VStr s => negb (s =? "")
  | VArr _ | VObj _ => true
  end.

Definition nullish (v : value) : bool :=
  match v with
  | VUndefined | VNull => true
  | _ => false
  end.

Fixpoint assoc (k : string) (props : list (string * value)) : value :=
  match props with
  | [] => VUndefined
  | (k', v) :: rest => if k' =? k then v else assoc k rest
  end.

(** [v[k]] for a [v] that is neither undefined nor null.  The program reads
    only the properties meta, data, demographics, identifiers and the section
    names; none of them is a built-in property of a string, an array, a
    number or a boolean, so on those the read yields undefined. *)
Definition get (v : value) (k : string) : value :=
  match v with
  | VObj props => assoc k props
  | _ => VUndefined
  end.

Definition index_key (i : nat) : string :=
  NilZero.string_of_uint (Nat.to_uint i).

(** The length of a JavaScript string: its number of UTF-16 code units.  A
    [VStr] holds the UTF-8 bytes of the string: a byte below 0x80 or a lead
    byte of a two- or three-byte sequence starts a character of one unit, a
    lead byte from 0xF0 on a character of two units (a surrogate pair), and a
    continuation byte (0x80 to 0xBF) starts nothing. *)
Fixpoint code_units (s : string) : nat :=
  match s with
  | EmptyString => 0
  | String c s' =>
      let b := Ascii.nat_of_ascii c in
      (if (b <? 128)%nat then 1
       else if (b <? 192)%nat then 0
       else if (b <? 240)%nat then 1
       else 2) + code_units s'
  end.

(** The property names a [for (k in v)] loop visits: the keys of an object,
    the indices of an array or of a string, nothing for the other values. *)
Definition keys (v : value) : list string :=
  match v with
  | VObj props => map fst props
  | VArr items => map index_key (seq 0 (length items))
  | VStr s => map index_key (seq 0 (code_units s))
  | _ => []
  end.

(** ** The libxmljs document *)

Inductive xml : Type :=
| Element (tag : string) (attrs : list (string * string)) (text : string)
          (children : list xml).

Definition tag_of (e : xml) : string := let '(Element t _ _ _) := e in t.
Definition attrs_of (e : xml) : list (string * string) :=
  let '(Element _ a _ _) := e in a.
Definition children_of (e : xml) : list xml :=
  let '(Element _ _ _ c) := e in c.

(** A node reference: the child indices leading from the root element to the
    node.  Children are only ever appended, so a reference stays valid. *)
Definition handle : Type := list nat.

Fixpoint subtree (h : handle) (e : xml) : option xml :=
  match h with
  | [] => Some e
  | i :: h' =>
      match children_of e !! i with
      | Some c => subtree h' c
      | None => None
      end
  end.

(** Append [new] to the children of the node at [h]. *)
Fixpoint graft (h : handle) (new : list xml) (e : xml) : xml :=
  let '(Element t a x cs) := e in
  match h with
  | [] => Element t a x (cs ++ new)
  | i :: h' => Element t a x (alter (graft h' new) i cs)
  end.

(** Add attributes to the node at [h]. *)
Fixpoint set_attrs (h : handle) (kv : list (string * string)) (e : xml) : xml :=
  let '(Element t a x cs) := e in
  match h with
  | [] => Element t (a ++ kv) x cs
  | i :: h' => Element t a x (alter (set_attrs h' kv) i cs)
  end.

Definition children_at (h : handle) (d : option xml) : list xml :=
  match d ≫= subtree h with
  | Some e => children_of e
  | None => []
  end.

(** ** The collaborators of index.js *)

(** The templates exported by [lib/templates/sectionLevel]. *)
Inductive sectionLevel : Type :=
| allergiesSectionEntriesRequired
| encountersSectionEntriesRequired
| immunizationsSectionEntriesRequired
| medicationsSectionEntriesRequired
| planOfCareSectionEntriesRequired
| problemsSectionEntriesRequired
| proceduresSectionEntriesRequired.

(** The section generators loaded with [require('./lib/<name>.js')]. *)
Inductive generator : Type :=
| demographics_js
| payers_js
| results_js
| social_history_js
| vitals_js.

(** Modelled from the spec: the code of [lib/] is missing (the five section
    generators, [js2xml.fillUsingTemplate], [libCCDAGen.id], the table
    [bbm.CCDA.codeSystems]) and so is libxmljs' serializer.  Following the
    spec's Document Tree ownership rule, a call is handed its insertion point
    and may append there: each collaborator is a function from its arguments
    other than the node to the markup it appends under that node (and, for a
    section generator, the value it returns).  A collaborator that throws is
    outside this model: what is proved about a run is proved about runs in
    which every collaborator returns. *)
Record Library (R : Type) : Type := {
  codeSystems : list (string * string);
  section_generator :
    generator -> value -> list (string * string) -> bool -> list xml * R;
  js2xml_fillUsingTemplate : value -> sectionLevel -> list xml;
  libCCDAGen_id : value -> list xml;
  toString : option xml -> string
}.

Arguments codeSystems {R} _.
Arguments section_generator {R} _ _ _ _ _.
Arguments js2xml_fillUsingTemplate {R} _ _ _.
Arguments libCCDAGen_id {R} _ _.
Arguments toString {R} _ _.

(** ** The store, the call log and the monad *)

Inductive callee : Type :=
| Call_generator (g : generator)
| Call_fillUsingTemplate (t : sectionLevel)
| Call_id.

(** One call to a collaborator: who was called, the data argument, the CCD
    flag (section generators only), the node handed over and the markup the
    call appended under it. *)
Record call : Type := {
  call_callee : callee;
  call_data : value;
  call_CCD : option bool;
  call_node : handle;
  call_emitted : list xml
}.

Record world : Type := {
  document : option xml;
  calls : list call
}.

Definition initial_world : world := {| document := None; calls := [] |}.

Inductive result (A : Type) : Type :=
| Ok (a : A) (w : world)
| TypeError.

Arguments Ok {A} _ _.
Arguments TypeError {A}.

Definition M (A : Type) : Type := world -> result A.

Definition ret {A} (a : A) : M A := fun w => Ok a w.

Definition bind {A B} (c : M A) (k : A -> M B) : M B :=
  fun w => match c w with
           | Ok a w' => k a w'
           | TypeError => TypeError
           end.

Declare Scope js_scope.
Delimit Scope js_scope with js.
Notation "x <- c ;; k" := (bind c (fun x => k))
  (at level 100, c at next level, k at level 200, right associativity)
  : js_scope.
Notation "c ;; k" := (bind c (fun _ => k))
  (at level 100, k at level 200, right associativity) : js_scope.
Local Open Scope js_scope.

Fixpoint for_each {A} (l : list A) (body : A -> M unit) : M unit :=
  match l with
  | [] => ret tt
  | a :: l' => body a ;; for_each l' body
  end.

(** [v.k]: a TypeError when [v] is undefined or null. *)
Definition prop (v : value) (k : string) : M value :=
  fun w => if nullish v then TypeError else Ok (get v k) w.

(** [new libxmljs.Document()] *)
Definition new_Document : M unit :=
  fun w => Ok tt {| document := None; calls := calls w |}.

(** [doc.node(name)]: the root element. *)
Definition doc_node (name : string) : M handle :=
  fun w => Ok [] {| document := Some (Element name [] "" []);
                    calls := calls w |}.

(** [parent.node(name, content)]: a new last child, which is returned. *)
Definition node (parent : handle) (name content : string) : M handle :=
  fun w => Ok (parent ++ [length (children_at parent (document w))])
              {| document := graft parent [Element name [] content []]
                               <$> document w;
                 calls := calls w |}.

(** [n.attr({...})] *)
Definition attr (n : handle) (kv : list (string * string)) : M handle :=
  fun w => Ok n {| document := set_attrs n kv <$> document w;
                   calls := calls w |}.

(** A collaborator was called on node [n] and appended [out] there. *)
Definition appended (c : callee) (d : value) (flag : option bool)
    (n : handle) (out : list xml) : M unit :=
  fun w => Ok tt {| document := graft n out <$> document w;
                    calls := calls w ++
                      [{| call_callee := c; call_data := d; call_CCD := flag;
                          call_node := n; call_emitted := out |}] |}.

(** ** index.js *)

(** Map section number to section name. *)
Definition sectionNames : list (nat * string) :=
  [ (0, "null");
    (1, "demographics");
    (2, "allergies");
    (3, "encounters");
    (4, "immunizations");
    (5, "medications");
    (6, "payers");
    (7, "plan_of_care");
    (8, "problems");
    (9, "procedures");
    (10, "results");
    (11, "social_history");
    (12, "vitals") ].

(** [sectionNames[i]].  A missing index reads as undefined, which as a
    property name or in a comparison with a string is "undefined". *)
Definition sectionNames_at (i : nat) : string :=
  match List.find (fun p => Nat.eqb (fst p) i) sectionNames with
  | Some p => snd p
  | None => "undefined"
  end.

(** How an activation of [gen] completes: through one of the
    [return require(...)(...)] statements, by running off the end of the
    function (the caller sees undefined), or through [return xmlDoc]. *)
Inductive completion (R : Type) : Type :=
| Return_generator (r : R)
| Fall_through
| Return_xmlDoc (xmlDoc : handle).

Arguments Return_generator {R} _.
Arguments Fall_through {R}.
Arguments Return_xmlDoc {R} _.

Section Index.

Context {R : Type} (L : Library R).

(** [require('./lib/<g>.js')(data, codeSystems, CCD, xmlDoc)] *)
Definition require (g : generator) (data : value) (CCD : bool)
    (xmlDoc : handle) : M R :=
  let out := section_generator L g data (codeSystems L) CCD in
  appended (Call_generator g) data (Some CCD) xmlDoc (fst out) ;;
  ret (snd out).

(** [js2xml.fillUsingTemplate(xmlDoc, data, template)] *)
Definition fillUsingTemplate (xmlDoc : handle) (data : value)
    (template : sectionLevel) : M unit :=
  appended (Call_fillUsingTemplate template) data None xmlDoc
           (js2xml_fillUsingTemplate L data template).

(** [libCCDAGen.id(xmlDoc, ids)] *)
Definition id (xmlDoc : handle) (ids : value) : M unit :=
  appended Call_id ids None xmlDoc (libCCDAGen_id L ids).

Definition gen (data : value) (CCD : bool) (xmlDoc : handle)
    (section_name : string) : M (completion R) :=
  if truthy data then
    if section_name =? "demographics" then
      r <- require demographics_js data CCD xmlDoc ;; ret (Return_generator r)
    else if section_name =? "allergies" then
      fillUsingTemplate xmlDoc data allergiesSectionEntriesRequired ;;
      ret Fall_through
    else if section_name =? "encounters" then
      fillUsingTemplate xmlDoc data encountersSectionEntriesRequired ;;
      ret Fall_through
    else if section_name =? "immunizations" then
      fillUsingTemplate xmlDoc data immunizationsSectionEntriesRequired ;;
      ret Fall_through
    else if section_name =? "medications" then
      fillUsingTemplate xmlDoc data medicationsSectionEntriesRequired ;;
      ret Fall_through
    else if section_name =? "payers" then
      r <- require payers_js data CCD xmlDoc ;; ret (Return_generator r)
    else if section_name =? "plan_of_care" then
      fillUsingTemplate xmlDoc data planOfCareSectionEntriesRequired ;;
      ret Fall_through
    else if section_name =? "problems" then
      fillUsingTemplate xmlDoc data problemsSectionEntriesRequired ;;
      ret Fall_through
    else if section_name =? "procedures" then
      fillUsingTemplate xmlDoc data proceduresSectionEntriesRequired ;;
      ret Fall_through
    else if section_name =? "results" then
      r <- require results_js data CCD xmlDoc ;; ret (Return_generator r)
    else if section_name =? "social_history" then
      r <- require social_history_js data CCD xmlDoc ;; ret (Return_generator r)
    else if section_name =? "vitals" then
      r <- require vitals_js data CCD xmlDoc ;; ret (Return_generator r)
    else ret Fall_through
  else ret (Return_xmlDoc xmlDoc).

(** The test of the [if] in the loop of [genWholeCCDA]. *)
Definition filled_from_template (name : string) : bool :=
  (name =? "plan_of_care") || (name =? "procedures") || (name =? "encounters")
  || (name =? "allergies") || (name =? "medications")
  || (name =? "immunizations") || (name =? "problems").

(** The body of the loop over the sections, at index [i]. *)
Definition gen_section (data : value) (sb : handle) (i : nat) : M unit :=
  if filled_from_template (sectionNames_at i) then
    gen data true sb (sectionNames_at i) ;; ret tt
  else
    slice <- prop data (sectionNames_at i) ;;
    gen slice true sb (sectionNames_at i) ;; ret tt.

(** [count_sections] after the [for (var sections in data)] loop. *)
Definition count_sections (data : value) : nat :=
  length (List.filter (fun sections => negb (sections =? "demographics"))
                 (keys data)).

(** The header, up to and including the patientRole node, which is
    returned together with the root element. *)
Definition header (meta : value) : M (handle * handle) :=
  new_Document ;;
  xmlDoc <- doc_node "ClinicalDocument" ;;
  attr xmlDoc [ ("xmlns:xsi", "http://www.w3.org/2001/XMLSchema-instance");
                ("xmlns", "urn:hl7-org:v3");
                ("xmlns:cda", "urn:hl7-org:v3");
                ("xmlns:sdtc", "urn:hl7-org:sdtc") ] ;;
  n <- node xmlDoc "realmCode" "" ;;
  attr n [ ("code", "US") ] ;;
  n <- node xmlDoc "typeId" "" ;;
  attr n [ ("root", "2.16.840.1.113883.1.3");
           ("extension", "POCD_HD000040") ] ;;
  n <- node xmlDoc "templateId" "" ;;
  attr n [ ("root", "2.16.840.1.113883.10.20.22.1.1") ] ;;
  n <- node xmlDoc "templateId" "" ;;
  attr n [ ("root", "2.16.840.1.113883.10.20.22.1.2") ] ;;
  ids <- (if truthy meta then prop meta "identifiers" else ret meta) ;;
  id xmlDoc ids ;;
  n <- node xmlDoc "code" "" ;;
  attr n [ ("codeSystem", "2.16.840.1.113883.6.1");
           ("codeSystemName", "LOINC");
           ("code", "34133-9");
           ("displayName", "Summarization of Episode Note") ] ;;
  node xmlDoc "title" "Community Health and Hospitals: Health Summary" ;;
  n <- node xmlDoc "effectiveTime" "" ;;
  attr n [ ("value", "TODO") ] ;;
  n <- node xmlDoc "confidentialityCode" "" ;;
  attr n [ ("code", "N");
           ("codeSystem", "2.16.840.1.113883.5.25") ] ;;
  n <- node xmlDoc "languageCode" "" ;;
  attr n [ ("code", "en-US") ] ;;
  n <- node xmlDoc "setId" "" ;;
  attr n [ ("extension", "sTT988");
           ("root", "2.16.840.1.113883.19.5.99999.19") ] ;;
  n <- node xmlDoc "versionNumber" "" ;;
  attr n [ ("value", "1") ] ;;
  rt <- node xmlDoc "recordTarget" "" ;;
  pr <- node rt "patientRole" "" ;;
  ret (xmlDoc, pr).

(** What [genWholeCCDA] hands back: the text of [doc.toString()], or
    nothing (undefined) when the function runs off its end. *)
Definition genWholeCCDA (data : value) : M (option string) :=
  meta <- prop data "meta" ;;
  wrapped <- prop data "data" ;;
  let data := if truthy wrapped then wrapped else data in
  nodes <- header meta ;;
  let '(xmlDoc, pr) := nodes in
  demographics <- prop data "demographics" ;;
  ids <- (if truthy demographics then prop demographics "identifiers"
          else ret demographics) ;;
  id pr ids ;;
  (* generate demographics section *)
  slice <- prop data (sectionNames_at 1) ;;
  gen slice true pr (sectionNames_at 1) ;;
  (* if there are more sections than just demographics, then generate them *)
  if (0 <? count_sections data)%nat then
    c <- node xmlDoc "component" "" ;;
    sb <- node c "structuredBody" "" ;;
    for_each (seq 2 (length sectionNames - 2)) (gen_section data sb) ;;
    fun w => Ok (Some (toString L (document w))) w
  else ret None.

End Index.

(** ** Observations on a run *)

Definition run {R} (L : Library R) (record : value) : result (option string) :=
  genWholeCCDA L record initial_world.

(** The object the sections are read from: [data.data] when the record has
    a truthy one, the record itself otherwise. *)
Definition unwrapped (record : value) : value :=
  if truthy (get record "data") then get record "data" else record.

(** [a && a.k] *)
Definition and_then (a : value) (k : string) : value :=
  if truthy a then get a k else a.

Definition node_tag (d : option xml) (h : handle) : option string :=
  tag_of <$> (d ≫= subtree h).

Definition option_string_eqb (a : option string) (b : string) : bool :=
  match a with
  | Some s => s =? b
  | None => false
  end.

(** The calls made on a node with the given tag. *)
Definition calls_on (tag : string) (w : world) : list call :=
  List.filter
    (fun c => option_string_eqb (node_tag (document w) (call_node c)) tag)
         (calls w).

(** The component node is the last child of the root element, and the
    structuredBody node its first child. *)
Definition structuredBody_handle (d : option xml) : handle :=
  [length (children_at [] d) - 1; 0].

(** The section name whose branch of [gen] reaches a callee. *)
Definition callee_section (c : callee) : string :=
  match c with
  | Call_generator demographics_js => "demographics"
  | Call_generator payers_js => "payers"
  | Call_generator results_js => "results"
  | Call_generator social_history_js => "social_history"
  | Call_generator vitals_js => "vitals"
  | Call_fillUsingTemplate allergiesSectionEntriesRequired => "allergies"
  | Call_fillUsingTemplate encountersSectionEntriesRequired => "encounters"
  | Call_fillUsingTemplate immunizationsSectionEntriesRequired =>
      "immunizations"
  | Call_fillUsingTemplate medicationsSectionEntriesRequired => "medications"
  | Call_fillUsingTemplate planOfCareSectionEntriesRequired => "plan_of_care"
  | Call_fillUsingTemplate problemsSectionEntriesRequired => "problems"
  | Call_fillUsingTemplate proceduresSectionEntriesRequired => "procedures"
  | Call_id => "id"
  end.

(** The sections filled from a template and the sections with a generator
    of their own. *)
Definition template_sections : list string :=
  [ "allergies"; "encounters"; "immunizations"; "medications";
    "plan_of_care"; "problems"; "procedures" ].

Definition bespoke_sections : list string :=
  [ "demographics"; "payers"; "results"; "social_history"; "vitals" ].

Definition canonical_order : list string :=
  [ "allergies"; "encounters"; "immunizations"; "medications"; "payers";
    "plan_of_care"; "problems"; "procedures"; "results"; "social_history";
    "vitals" ].

(** The markup emitted by the calls logged after [w] on the way to [w']. *)
Definition emitted_since (w w' : world) : list xml :=
  concat (map call_emitted (drop (length (calls w)) (calls w'))).

(** The markup whole-document assembly put under structuredBody for a
    section. *)
Definition section_fragment (w : world) (name : string) : list xml :=
  concat (map call_emitted
            (List.filter (fun c => callee_section (call_callee c) =? name)
                    (calls_on "structuredBody" w))).

(** ** Closed forms

    What [gen] and [genWholeCCDA] compute, written without the monad; the
    lemmas below prove that the code computes exactly this. *)

Definition namespaces : list (string * string) :=
  [ ("xmlns:xsi", "http://www.w3.org/2001/XMLSchema-instance");
    ("xmlns", "urn:hl7-org:v3");
    ("xmlns:cda", "urn:hl7-org:v3");
    ("xmlns:sdtc", "urn:hl7-org:sdtc") ].

Definition header_before_id : list xml :=
  [ Element "realmCode" [("code", "US")] "" [];
    Element "typeId" [("root", "2.16.840.1.113883.1.3");
                      ("extension", "POCD_HD000040")] "" [];
    Element "templateId" [("root", "2.16.840.1.113883.10.20.22.1.1")] "" [];
    Element "templateId" [("root", "2.16.840.1.113883.10.20.22.1.2")] "" [] ].

Definition header_after_id : list xml :=
  [ Element "code" [("codeSystem", "2.16.840.1.113883.6.1");
                    ("codeSystemName", "LOINC");
                    ("code", "34133-9");
                    ("displayName", "Summarization of Episode Note")] "" [];
    Element "title" [] "Community Health and Hospitals: Health Summary" [];
    Element "effectiveTime" [("value", "TODO")] "" [];
    Element "confidentialityCode"
            [("code", "N"); ("codeSystem", "2.16.840.1.113883.5.25")] "" [];
    Element "languageCode" [("code", "en-US")] "" [];
    Element "setId" [("extension", "sTT988");
                     ("root", "2.16.840.1.113883.19.5.99999.19")] "" [];
    Element "versionNumber" [("value", "1")] "" [] ].

(** The collaborator the chain of comparisons in [gen] selects. *)
Definition dispatch (section_name : string) : option callee :=
  if section_name =? "demographics" then Some (Call_generator demographics_js)
  else if section_name =? "allergies" then
    Some (Call_fillUsingTemplate allergiesSectionEntriesRequired)
  else if section_name =? "encounters" then
    Some (Call_fillUsingTemplate encountersSectionEntriesRequired)
  else if section_name =? "immunizations" then
    Some (Call_fillUsingTemplate immunizationsSectionEntriesRequired)
  else if section_name =? "medications" then
    Some (Call_fillUsingTemplate medicationsSectionEntriesRequired)
  else if section_name =? "payers" then Some (Call_generator payers_js)
  else if section_name =? "plan_of_care" then
    Some (Call_fillUsingTemplate planOfCareSectionEntriesRequired)
  else if section_name =? "problems" then
    Some (Call_fillUsingTemplate problemsSectionEntriesRequired)
  else if section_name =? "procedures" then
    Some (Call_fillUsingTemplate proceduresSectionEntriesRequired)
  else if section_name =? "results" then Some (Call_generator results_js)
  else if section_name =? "social_history" then
    Some (Call_generator social_history_js)
  else if section_name =? "vitals" then Some (Call_generator vitals_js)
  else None.

(** The effect of a sequence of calls on the world. *)
Definition replay (cs : list call) (w : world) : world :=
  fold_left (fun w c =>
               {| document := graft (call_node c) (call_emitted c)
                                <$> document w;
                  calls := calls w ++ [c] |}) cs w.

Definition emitted (cs : list call) : list xml :=
  concat (map call_emitted cs).

Section ClosedForms.

Context {R : Type} (L : Library R).

(** The children of the root element up to, but without, recordTarget. *)
Definition header_fields (meta : value) : list xml :=
  header_before_id ++ libCCDAGen_id L (and_then meta "identifiers")
  ++ header_after_id.

Definition id_call (n : handle) (ids : value) : call :=
  {| call_callee := Call_id; call_data := ids; call_CCD := None;
     call_node := n; call_emitted := libCCDAGen_id L ids |}.

Definition generator_call (g : generator) (d : value) (CCD : bool)
    (n : handle) : call :=
  {| call_callee := Call_generator g; call_data := d; call_CCD := Some CCD;
     call_node := n;
     call_emitted := fst (section_generator L g d (codeSystems L) CCD) |}.

Definition fill_call (t : sectionLevel) (d : value) (n : handle) : call :=
  {| call_callee := Call_fillUsingTemplate t; call_data := d;
     call_CCD := None; call_node := n;
     call_emitted := js2xml_fillUsingTemplate L d t |}.

(** The calls one activation of [gen] makes: at most one. *)
Definition gen_calls (d : value) (CCD : bool) (n : handle)
    (section_name : string) : list call :=
  if truthy d then
    match dispatch section_name with
    | Some (Call_generator g) => [generator_call g d CCD n]
    | Some (Call_fillUsingTemplate t) => [fill_call t d n]
    | _ => []
    end
  else [].

Definition gen_completion (d : value) (CCD : bool) (n : handle)
    (section_name : string) : completion R :=
  if truthy d then
    match dispatch section_name with
    | Some (Call_generator g) =>
        Return_generator (snd (section_generator L g d (codeSystems L) CCD))
    | _ => Fall_through
    end
  else Return_xmlDoc n.

(** The argument [gen] receives for the section at index [i]. *)
Definition section_argument (data : value) (i : nat) : value :=
  if filled_from_template (sectionNames_at i) then data
  else get data (sectionNames_at i).

Definition section_calls (data : value) (sb : handle) (i : nat) : list call :=
  gen_calls (section_argument data i) true sb (sectionNames_at i).

Definition patientRole_handle (record : value) : handle :=
  [length (header_fields (get record "meta")); 0].

Definition body_handle (record : value) : handle :=
  [S (length (header_fields (get record "meta"))); 0].

(** The calls on the patientRole node. *)
Definition patient_calls (record : value) : list call :=
  let demographics := get (unwrapped record) "demographics" in
  id_call (patientRole_handle record)
          (and_then demographics "identifiers")
  :: gen_calls demographics true (patientRole_handle record) "demographics".

(** The calls on the structuredBody node. *)
Definition body_calls (record : value) : list call :=
  flat_map (section_calls (unwrapped record) (body_handle record))
           (seq 2 (length sectionNames - 2)).

Definition recordTarget (record : value) : xml :=
  Element "recordTarget" [] ""
          [Element "patientRole" [] "" (emitted (patient_calls record))].

Definition component (record : value) : xml :=
  Element "component" [] ""
          [Element "structuredBody" [] "" (emitted (body_calls record))].

Definition header_only (record : value) : world :=
  {| document :=
       Some (Element "ClinicalDocument" namespaces ""
               (header_fields (get record "meta") ++ [recordTarget record]));
     calls := id_call [] (and_then (get record "meta") "identifiers")
              :: patient_calls record |}.

Definition with_body (record : value) : world :=
  {| document :=
       Some (Element "ClinicalDocument" namespaces ""
               ((header_fields (get record "meta") ++ [recordTarget record])
                ++ [component record]));
     calls := (id_call [] (and_then (get record "meta") "identifiers")
               :: patient_calls record) ++ body_calls record |}.

(** A section generator is called when its slice is truthy. *)
Definition generator_calls (g : generator) (d : value) (n : handle)
    : list call :=
  if truthy d then [generator_call g d true n] else [].

End ClosedForms.

(** The dispatch with the two rows of its decision table exchanged: the
    template filler receives the section's own slice, a section generator
    the entire unwrapped record. *)
Definition slice_to_filler_record_to_generator (record : value) (w : world)
    : Prop :=
  forall c, In c (calls_on "structuredBody" w) ->
    match call_callee c with
    | Call_fillUsingTemplate _ =>
        call_data c = get (unwrapped record) (callee_section (call_callee c))
    | Call_generator _ => call_data c = unwrapped record
    | Call_id => True
    end.

(** ** A sample library *)

Module Sample.

Definition template_name (t : sectionLevel) : string :=
  callee_section (Call_fillUsingTemplate t).

Definition items_of (d : value) : list value :=
  match d with
  | VArr items => items
  | _ => if truthy d then [d] else []
  end.

(** Modelled from the spec: the Template Filler of section 4.2, which does
    nothing for an absent data slice and otherwise emits markup for every
    item of the slice, an item being a single record or one of a sequence.
    The template here has one required entry. *)
Definition fill (d : value) (t : sectionLevel) : list xml :=
  map (fun _ => Element "entry" [("template", template_name t)] "" [])
      (items_of d).

Definition generate (g : generator) (d : value)
    (cs : list (string * string)) (CCD : bool) : list xml * string :=
  ([Element "section" [("name", callee_section (Call_generator g))] "" []],
   callee_section (Call_generator g)).

Definition id_block (ids : value) : list xml :=
  match ids with
  | VArr items => map (fun _ => Element "id" [] "" []) items
  | _ => [Element "id" [("nullFlavor", "NI")] "" []]
  end.

Definition library : Library string := {|
  codeSystems := [("LOINC", "2.16.840.1.113883.6.1")];
  section_generator := generate;
  js2xml_fillUsingTemplate := fill;
  libCCDAGen_id := id_block;
  toString := fun d => match d with Some e => tag_of e | None => "" end
|}.

Definition patient : value :=
  VObj [("identifiers", VArr [VObj [("identifier", VStr "1")]])].

Definition only_demographics : value := VObj [("demographics", patient)].

Definition two_allergies : value :=
  VArr [VObj [("allergen", VStr "a")]; VObj [("allergen", VStr "b")]].

Definition one_payer : value := VArr [VObj [("policy", VStr "p")]].

Definition with_allergies_and_payers : value :=
  VObj [("payers", one_payer); ("demographics", patient);
        ("allergies", two_allergies)].

Definition only_allergies : value := VObj [("allergies", two_allergies)].

(** A record with a data wrapper that carries a meta of its own. *)
Definition wrapped : value :=
  VObj [("meta", VObj [("identifiers", VArr [VStr "outer"])]);
        ("data", VObj [("meta", VObj [("identifiers", VArr [VStr "inner"])]);
                       ("demographics", patient);
                       ("allergies", two_allergies)])].

(** The same wrapper and outer meta, with sections beside the wrapper. *)
Definition wrapped_with_outer_sections : value :=
  VObj [("vitals", VArr [VObj [("vital", VStr "bp")]]);
        ("meta", VObj [("identifiers", VArr [VStr "outer"])]);
        ("data", VObj [("meta", VObj [("identifiers", VArr [VStr "inner"])]);
                       ("demographics", patient);
                       ("allergies", two_allergies)]);
        ("payers", one_payer)].

End Sample.

(** A parent node for single-section calls: the first child of a root. *)
Module Standalone.

Definition parent : handle := [0].

Definition before : world :=
  {| document := Some (Element "root" [] "" [Element "parent" [] "" []]);
     calls := [] |}.

End Standalone.

(** ** Paths into a tree *)

Lemma alter_middle {A} (f : A -> A) (pre : list A) (x : A) (rest : list A) :
  alter f (length pre) (pre ++ x :: rest) = pre ++ f x :: rest.
Proof.
  rewrite <- (Nat.add_0_r (length pre)) at 1.
  now rewrite alter_app_r.
Qed.

Lemma graft_middle t a x pre c rest h new :
  graft (length pre :: h) new (Element t a x (pre ++ c :: rest))
  = Element t a x (pre ++ graft h new c :: rest).
Proof. simpl. now rewrite alter_middle. Qed.

Lemma set_attrs_middle t a x pre c rest h kv :
  set_attrs (length pre :: h) kv (Element t a x (pre ++ c :: rest))
  = Element t a x (pre ++ set_attrs h kv c :: rest).
Proof. simpl. now rewrite alter_middle. Qed.

Lemma subtree_middle t a x pre c rest h :
  subtree (length pre :: h) (Element t a x (pre ++ c :: rest)) = subtree h c.
Proof. simpl. now rewrite list_lookup_middle. Qed.

(** ** Running the primitives *)

Lemma bind_Ok {A B} (c : M A) (k : A -> M B) w a w' :
  c w = Ok a w' -> bind c k w = k a w'.
Proof. unfold bind. now intros ->. Qed.

Lemma prop_Ok v k w : nullish v = false -> prop v k w = Ok (get v k) w.
Proof. unfold prop. now intros ->. Qed.

Lemma truthy_not_nullish v : truthy v = true -> nullish v = false.
Proof. now destruct v. Qed.

(** [a && a.k] never throws. *)
Lemma and_then_Ok v k w :
  (if truthy v then prop v k else ret v) w = Ok (and_then v k) w.
Proof.
  unfold and_then. destruct (truthy v) eqn:Hv; [|reflexivity].
  now apply prop_Ok, truthy_not_nullish.
Qed.

Section Steps.

Variables (t : string) (a : list (string * string)) (x : string).
Variables (cs : list xml) (lg : list call).

Lemma node_root n c :
  node [] n c {| document := Some (Element t a x cs); calls := lg |}
  = Ok [length cs]
       {| document := Some (Element t a x (cs ++ [Element n [] c []]));
          calls := lg |}.
Proof. reflexivity. Qed.

Lemma attr_last n a' c ch kv :
  attr [length cs] kv
       {| document := Some (Element t a x (cs ++ [Element n a' c ch]));
          calls := lg |}
  = Ok [length cs]
       {| document := Some (Element t a x (cs ++ [Element n (a' ++ kv) c ch]));
          calls := lg |}.
Proof. unfold attr. cbn [fmap option_fmap option_map document calls].
  now rewrite set_attrs_middle. Qed.

Lemma node_last n a' c ch n2 c2 :
  node [length cs] n2 c2
       {| document := Some (Element t a x (cs ++ [Element n a' c ch]));
          calls := lg |}
  = Ok [length cs; length ch]
       {| document :=
            Some (Element t a x
                    (cs ++ [Element n a' c (ch ++ [Element n2 [] c2 []])]));
          calls := lg |}.
Proof.
  unfold node, children_at.
  cbn [fmap option_fmap option_map document calls mbind option_bind].
  now rewrite subtree_middle, graft_middle.
Qed.

Lemma appended_root who d flag out :
  appended who d flag [] out
           {| document := Some (Element t a x cs); calls := lg |}
  = Ok tt {| document := Some (Element t a x (cs ++ out));
             calls := lg ++ [{| call_callee := who; call_data := d;
                                call_CCD := flag; call_node := [];
                                call_emitted := out |}] |}.
Proof. reflexivity. Qed.

End Steps.

Ltac step lem := erewrite bind_Ok by (apply lem; assumption); cbv beta.

(** ** The header in closed form *)

Lemma header_spec {R} (L : Library R) meta w :
  header L meta w
  = Ok ([], [length (header_fields L meta); 0])
       {| document :=
            Some (Element "ClinicalDocument" namespaces ""
                    (header_fields L meta ++
                     [Element "recordTarget" [] ""
                        [Element "patientRole" [] "" []]]));
          calls := calls w ++ [id_call L [] (and_then meta "identifiers")] |}.
Proof.
  unfold header.
  erewrite bind_Ok by reflexivity.
  erewrite bind_Ok by reflexivity. cbv beta.
  erewrite bind_Ok by reflexivity.
  step node_root. step attr_last.
  step node_root. step attr_last.
  step node_root. step attr_last.
  step node_root. step attr_last.
  step and_then_Ok.
  unfold id. step appended_root.
  step node_root. step attr_last.
  step node_root.
  step node_root. step attr_last.
  step node_root. step attr_last.
  step node_root. step attr_last.
  step node_root. step attr_last.
  step node_root. step attr_last.
  step node_root. step node_last.
  unfold ret, header_fields, id_call.
  cbn [app calls document length].
  rewrite <- !app_assoc. reflexivity.
Qed.

(** ** The dispatcher in closed form *)

Lemma replay_app cs1 cs2 w : replay (cs1 ++ cs2) w = replay cs2 (replay cs1 w).
Proof. apply fold_left_app. Qed.

Lemma replay_calls cs w : calls (replay cs w) = calls w ++ cs.
Proof.
  revert w. induction cs as [|c cs IH]; intros w; simpl.
  - now rewrite app_nil_r.
  - unfold replay in IH. rewrite IH. simpl. now rewrite <- app_assoc.
Qed.

Lemma gen_spec {R} (L : Library R) d CCD n section_name w :
  gen L d CCD n section_name w
  = Ok (gen_completion L d CCD n section_name)
       (replay (gen_calls L d CCD n section_name) w).
Proof.
  unfold gen, gen_completion, gen_calls, dispatch.
  destruct (truthy d); [|reflexivity].
  repeat (match goal with
          | |- context [?s =? ?k] => destruct (s =? k)
          end; [reflexivity|]).
  reflexivity.
Qed.

(** Calls that all append under the first child of the last child of the
    root element. *)
Lemma replay_under_last t a x pre n1 a1 x1 n2 a2 x2 cs : forall ch lg,
  Forall (fun c => call_node c = [length pre; 0]) cs ->
  replay cs {| document :=
                 Some (Element t a x
                         (pre ++ [Element n1 a1 x1 [Element n2 a2 x2 ch]]));
               calls := lg |}
  = {| document :=
         Some (Element t a x
                 (pre ++ [Element n1 a1 x1
                            [Element n2 a2 x2 (ch ++ emitted cs)]]));
       calls := lg ++ cs |}.
Proof.
  induction cs as [|c cs IH]; intros ch lg Hn.
  - unfold emitted. simpl. now rewrite !app_nil_r.
  - inversion Hn as [|? ? Hc Hcs]; subst.
    change (replay (c :: cs) ?w) with (replay cs (replay [c] w)).
    unfold replay at 2. simpl fold_left.
    cbn [document calls fmap option_fmap option_map].
    rewrite Hc, graft_middle. simpl graft.
    rewrite IH by assumption.
    change (emitted (c :: cs)) with (call_emitted c ++ emitted cs).
    now rewrite <- !app_assoc.
Qed.

Lemma appended_replay who d flag n out w :
  appended who d flag n out w
  = Ok tt (replay [{| call_callee := who; call_data := d; call_CCD := flag;
                      call_node := n; call_emitted := out |}] w).
Proof. reflexivity. Qed.

(** ** The loop over the sections in closed form *)

Section Loop.

Context {R : Type} (L : Library R).

Lemma gen_section_spec data sb i w :
  nullish data = false ->
  gen_section L data sb i w = Ok tt (replay (section_calls L data sb i) w).
Proof.
  intros Hd. unfold gen_section, section_calls, section_argument.
  destruct (filled_from_template (sectionNames_at i)).
  - step (gen_spec L). reflexivity.
  - step prop_Ok. step (gen_spec L). reflexivity.
Qed.

Lemma for_each_gen_section data sb l : forall w,
  nullish data = false ->
  for_each l (gen_section L data sb) w
  = Ok tt (replay (flat_map (section_calls L data sb) l) w).
Proof.
  induction l as [|i l IH]; intros w Hd; [reflexivity|].
  cbn [for_each flat_map]. step gen_section_spec.
  rewrite IH by assumption. now rewrite replay_app.
Qed.

Lemma gen_calls_node d CCD n name :
  Forall (fun c => call_node c = n) (gen_calls L d CCD n name).
Proof.
  unfold gen_calls. destruct (truthy d); [|constructor].
  destruct (dispatch name) as [[g|t|]|]; repeat constructor.
Qed.

Lemma section_calls_node data sb l :
  Forall (fun c => call_node c = sb) (flat_map (section_calls L data sb) l).
Proof.
  induction l as [|i l IH]; [constructor|].
  cbn [flat_map]. apply Forall_app. split; [apply gen_calls_node|exact IH].
Qed.

End Loop.

(** ** Whole-document assembly in closed form *)

Lemma unwrapped_not_nullish record :
  nullish record = false -> nullish (unwrapped record) = false.
Proof.
  intros Hr. unfold unwrapped.
  destruct (truthy (get record "data")) eqn:Hd; [|assumption].
  now apply truthy_not_nullish.
Qed.

Section Assembly.

Context {R : Type} (L : Library R).

Lemma run_spec record :
  nullish record = false ->
  run L record
  = if (0 <? count_sections (unwrapped record))%nat
    then Ok (Some (toString L (document (with_body L record))))
            (with_body L record)
    else Ok None (header_only L record).
Proof.
  intros Hr. pose proof (unwrapped_not_nullish record Hr) as Hd.
  unfold run, genWholeCCDA.
  step prop_Ok. step prop_Ok. fold (unwrapped record).
  step (header_spec L). cbv iota beta.
  step prop_Ok. step and_then_Ok.
  unfold id. step appended_replay.
  change (sectionNames_at 1) with "demographics".
  step prop_Ok. step (gen_spec L).
  rewrite <- replay_app.
  cbn [app]. fold (id_call L (patientRole_handle L record)
    (and_then (get (unwrapped record) "demographics") "identifiers")).
  fold (patientRole_handle L record). fold (patient_calls L record).
  rewrite replay_under_last
    by (apply Forall_cons; split; [reflexivity|apply gen_calls_node]).
  cbn [app calls]. fold (recordTarget L record).
  destruct (0 <? count_sections (unwrapped record))%nat; [|reflexivity].
  step node_root. step node_last. cbn [app length].
  step (for_each_gen_section L).
  rewrite replay_under_last by apply section_calls_node.
  rewrite length_app, Nat.add_1_r. reflexivity.
Qed.

End Assembly.

(** ** Where the calls of a run landed *)

Lemma filter_by_node d h tg tag cs :
  Forall (fun c => call_node c = h) cs ->
  node_tag d h = Some tg ->
  List.filter (fun c => option_string_eqb (node_tag d (call_node c)) tag) cs
  = if tg =? tag then cs else [].
Proof.
  intros Hcs Ht. induction Hcs as [|c cs Hc _ IH]; simpl.
  - now destruct (tg =? tag).
  - rewrite Hc, Ht, IH. simpl. now destruct (tg =? tag).
Qed.

Section Landing.

Context {R : Type} (L : Library R) (record : value).

Lemma patient_calls_node :
  Forall (fun c => call_node c = patientRole_handle L record)
         (patient_calls L record).
Proof. apply Forall_cons; split; [reflexivity|apply gen_calls_node]. Qed.

Lemma body_calls_node :
  Forall (fun c => call_node c = body_handle L record) (body_calls L record).
Proof. apply section_calls_node. Qed.

Lemma with_body_patientRole :
  document (with_body L record) ≫= subtree (patientRole_handle L record)
  = Some (Element "patientRole" [] "" (emitted (patient_calls L record))).
Proof.
  unfold with_body, patientRole_handle. cbn [document mbind option_bind].
  rewrite <- app_assoc. cbn [app]. now rewrite subtree_middle.
Qed.

Lemma header_only_patientRole :
  document (header_only L record) ≫= subtree (patientRole_handle L record)
  = Some (Element "patientRole" [] "" (emitted (patient_calls L record))).
Proof.
  unfold header_only, patientRole_handle. cbn [document mbind option_bind].
  now rewrite subtree_middle.
Qed.

Lemma body_handle_length :
  body_handle L record
  = [length (header_fields L (get record "meta") ++ [recordTarget L record]);
     0].
Proof. unfold body_handle. now rewrite length_app, Nat.add_1_r. Qed.

Lemma with_body_structuredBody :
  document (with_body L record) ≫= subtree (body_handle L record)
  = Some (Element "structuredBody" [] "" (emitted (body_calls L record))).
Proof.
  rewrite body_handle_length. unfold with_body.
  cbn [document mbind option_bind]. now rewrite subtree_middle.
Qed.

Lemma with_body_structuredBody_handle :
  structuredBody_handle (document (with_body L record))
  = body_handle L record.
Proof.
  unfold structuredBody_handle, children_at, with_body, body_handle.
  cbn [document mbind option_bind subtree children_of].
  rewrite !length_app. cbn [length]. f_equal. lia.
Qed.

Lemma calls_on_structuredBody :
  calls_on "structuredBody" (with_body L record) = body_calls L record.
Proof.
  unfold calls_on.
  change (calls (with_body L record))
    with ([id_call L [] (and_then (get record "meta") "identifiers")]
          ++ patient_calls L record ++ body_calls L record).
  rewrite !List.filter_app.
  rewrite (filter_by_node _ _ "patientRole" _ _ patient_calls_node)
    by (unfold node_tag; now rewrite with_body_patientRole).
  rewrite (filter_by_node _ _ "structuredBody" _ _ body_calls_node)
    by (unfold node_tag; now rewrite with_body_structuredBody).
  reflexivity.
Qed.

Lemma calls_on_patientRole_with_body :
  calls_on "patientRole" (with_body L record) = patient_calls L record.
Proof.
  unfold calls_on.
  change (calls (with_body L record))
    with ([id_call L [] (and_then (get record "meta") "identifiers")]
          ++ patient_calls L record ++ body_calls L record).
  rewrite !List.filter_app.
  rewrite (filter_by_node _ _ "patientRole" _ _ patient_calls_node)
    by (unfold node_tag; now rewrite with_body_patientRole).
  rewrite (filter_by_node _ _ "structuredBody" _ _ body_calls_node)
    by (unfold node_tag; now rewrite with_body_structuredBody).
  cbn. now rewrite app_nil_r.
Qed.

Lemma calls_on_patientRole_header_only :
  calls_on "patientRole" (header_only L record) = patient_calls L record.
Proof.
  unfold calls_on.
  change (calls (header_only L record))
    with ([id_call L [] (and_then (get record "meta") "identifiers")]
          ++ patient_calls L record).
  rewrite !List.filter_app.
  rewrite (filter_by_node _ _ "patientRole" _ _ patient_calls_node)
    by (unfold node_tag; now rewrite header_only_patientRole).
  reflexivity.
Qed.

Lemma calls_on_structuredBody_header_only :
  calls_on "structuredBody" (header_only L record) = [].
Proof.
  unfold calls_on.
  change (calls (header_only L record))
    with ([id_call L [] (and_then (get record "meta") "identifiers")]
          ++ patient_calls L record).
  rewrite !List.filter_app.
  rewrite (filter_by_node _ _ "patientRole" _ _ patient_calls_node)
    by (unfold node_tag; now rewrite header_only_patientRole).
  reflexivity.
Qed.

End Landing.

(** ** The calls on structuredBody, spelled out *)

Lemma count_sections_truthy data :
  (0 <? count_sections data)%nat = true -> truthy data = true.
Proof.
  unfold count_sections.
  destruct data as [| |b|n|s|items|props]; try discriminate; try reflexivity.
  destruct s; [discriminate|reflexivity].
Qed.

Section Body.

Context {R : Type} (L : Library R).

Lemma body_calls_explicit record :
  truthy (unwrapped record) = true ->
  let data := unwrapped record in
  let sb := body_handle L record in
  body_calls L record
  = [ fill_call L allergiesSectionEntriesRequired data sb;
      fill_call L encountersSectionEntriesRequired data sb;
      fill_call L immunizationsSectionEntriesRequired data sb;
      fill_call L medicationsSectionEntriesRequired data sb ]
    ++ generator_calls L payers_js (get data "payers") sb
    ++ [ fill_call L planOfCareSectionEntriesRequired data sb;
         fill_call L problemsSectionEntriesRequired data sb;
         fill_call L proceduresSectionEntriesRequired data sb ]
    ++ generator_calls L results_js (get data "results") sb
    ++ generator_calls L social_history_js (get data "social_history") sb
    ++ generator_calls L vitals_js (get data "vitals") sb.
Proof.
  intros Ht data sb. subst data sb.
  unfold body_calls, section_calls, section_argument.
  cbn [seq flat_map length sectionNames Nat.sub app].
  repeat match goal with
         | |- context [sectionNames_at ?i] =>
             let s := eval vm_compute in (sectionNames_at i) in
             change (sectionNames_at i) with s
         end.
  repeat match goal with
         | |- context [filled_from_template ?n] =>
             let b := eval vm_compute in (filled_from_template n) in
             change (filled_from_template n) with b
         end.
  cbv iota.
  unfold gen_calls at 1 2 3 4 6 7 8. rewrite Ht.
  now rewrite app_nil_r.
Qed.

End Body.

(** * Properties *)

(** ** The single-section entry point *)

(** C7: for every section name and every parent node, calling [gen] with
    absent (falsy) data returns the parent node and changes nothing: the
    document, hence the children of the parent, and the call log are as
    before. *)
Theorem gen_absent_data_returns_parent {R} (L : Library R)
    (d : value) (CCD : bool) (xmlDoc : handle) (section_name : string)
    (w : world) :
  truthy d = false ->
  gen L d CCD xmlDoc section_name w = Ok (Return_xmlDoc xmlDoc) w.
Proof. intros Hd. unfold gen. now rewrite Hd. Qed.

Lemma gen_absent_data_returns_parent_witness :
  truthy VNull = false /\
  gen Sample.library VNull false Standalone.parent "allergies"
      Standalone.before
  = Ok (Return_xmlDoc Standalone.parent) Standalone.before.
Proof.
  split; [reflexivity|].
  apply (gen_absent_data_returns_parent Sample.library); reflexivity.
Defined.

(** C8: for a section name that is none of the thirteen names of the
    registry and data that is present, [gen] completes without an error and
    without a value, and changes nothing: no collaborator is called and the
    children of the parent node are as before. *)
Theorem gen_unknown_section_is_no_op {R} (L : Library R)
    (d : value) (CCD : bool) (xmlDoc : handle) (section_name : string)
    (w : world) :
  ~ In section_name (map snd sectionNames) ->
  truthy d = true ->
  gen L d CCD xmlDoc section_name w = Ok Fall_through w.
Proof.
  intros Hn Hd. unfold gen. rewrite Hd.
  repeat match goal with
         | |- context [section_name =? ?k] =>
             destruct (String.eqb_spec section_name k) as [->|_];
             [exfalso; apply Hn; simpl; tauto|]
         end.
  reflexivity.
Qed.

Lemma gen_unknown_section_is_no_op_witness :
  ~ In "family_history" (map snd sectionNames) /\
  truthy Sample.two_allergies = true /\
  gen Sample.library Sample.two_allergies false Standalone.parent
      "family_history" Standalone.before
  = Ok Fall_through Standalone.before.
Proof.
  assert (Hn : ~ In "family_history" (map snd sectionNames)).
  { simpl. intros H. repeat (destruct H as [H|H]; [discriminate H|]).
    exact H. }
  split; [exact Hn|]. split; [reflexivity|].
  apply (gen_unknown_section_is_no_op Sample.library);
    [exact Hn|reflexivity].
Defined.

(** C9: with present (truthy) data [gen] hands back a value only for the
    five sections with a generator of their own, namely what the generator
    returned; for the seven sections filled from a template it calls the
    filler and then completes without a value; and it never completes
    through [return xmlDoc], which is therefore confined to absent data. *)
Theorem gen_completion_with_data {R} (L : Library R)
    (d : value) (CCD : bool) (xmlDoc : handle) (section_name : string)
    (w : world) :
  truthy d = true ->
  (In section_name bespoke_sections ->
   exists g,
     callee_section (Call_generator g) = section_name /\
     gen L d CCD xmlDoc section_name w
     = Ok (Return_generator (snd (section_generator L g d (codeSystems L) CCD)))
          (replay [generator_call L g d CCD xmlDoc] w)) /\
  (In section_name template_sections ->
   exists t,
     callee_section (Call_fillUsingTemplate t) = section_name /\
     gen L d CCD xmlDoc section_name w
     = Ok Fall_through (replay [fill_call L t d xmlDoc] w)) /\
  (~ In section_name bespoke_sections ->
   exists w', gen L d CCD xmlDoc section_name w = Ok Fall_through w') /\
  (forall n w', gen L d CCD xmlDoc section_name w <> Ok (Return_xmlDoc n) w').
Proof.
  intros Hd. rewrite gen_spec. unfold gen_completion, gen_calls.
  rewrite Hd. repeat split.
  - intros Hin. simpl in Hin.
    repeat (destruct Hin as [<-|Hin];
            [eexists; split; [|reflexivity]; reflexivity|]).
    destruct Hin.
  - intros Hin. simpl in Hin.
    repeat (destruct Hin as [<-|Hin];
            [eexists; split; [|reflexivity]; reflexivity|]).
    destruct Hin.
  - intros Hn. unfold dispatch.
    repeat match goal with
           | |- context [section_name =? ?k] =>
               destruct (String.eqb_spec section_name k) as [->|_];
               [first [exfalso; apply Hn; simpl; tauto
                      |eexists; reflexivity]|]
           end.
    eexists; reflexivity.
  - intros n w'. destruct (dispatch section_name) as [[g|t|]|]; discriminate.
Qed.

Lemma gen_completion_with_data_witness :
  truthy Sample.two_allergies = true /\
  forall n w',
    gen Sample.library Sample.two_allergies false Standalone.parent
        "allergies" Standalone.before
    <> Ok (Return_xmlDoc n) w'.
Proof.
  split; [reflexivity|].
  apply (gen_completion_with_data Sample.library Sample.two_allergies false
           Standalone.parent "allergies" Standalone.before).
  reflexivity.
Defined.

(** ** What the dispatcher hands to the collaborators *)

(** C1 fails as worded: in the run on a sample record with allergies and
    payers, the filler is called for allergies with the entire record, not
    with the allergies slice. *)
Lemma slice_to_filler_record_to_generator_fails :
  exists r w,
    run Sample.library Sample.with_allergies_and_payers = Ok r w /\
    ~ slice_to_filler_record_to_generator Sample.with_allergies_and_payers w.
Proof.
  eexists _, _. split; [vm_compute; reflexivity|].
  intros H.
  specialize (H (fill_call Sample.library allergiesSectionEntriesRequired
                   Sample.with_allergies_and_payers [13; 0])).
  cbn [call_callee fill_call] in H.
  assert (Hd : call_data
            (fill_call Sample.library allergiesSectionEntriesRequired
               Sample.with_allergies_and_payers [13; 0])
          = get (unwrapped Sample.with_allergies_and_payers) "allergies").
  { apply H. vm_compute. left. reflexivity. }
  vm_compute in Hd. discriminate Hd.
Qed.

(** C1, amended: in whole-document assembly every call of the template
    filler on structuredBody receives the entire unwrapped record, and every
    call of a section generator there receives only that section's slice
    [data[sectionName]], which is truthy; when a structuredBody is created,
    the filler is called for each of the seven templates and the generator of
    each of payers, results, social_history and vitals whose slice is
    truthy. *)
Theorem record_to_filler_slice_to_generator {R} (L : Library R)
    (record : value) :
  nullish record = false ->
  exists r w,
    run L record = Ok r w /\
    (forall c, In c (calls_on "structuredBody" w) ->
       match call_callee c with
       | Call_fillUsingTemplate _ => call_data c = unwrapped record
       | Call_generator _ =>
           call_data c
           = get (unwrapped record) (callee_section (call_callee c)) /\
           truthy (call_data c) = true
       | Call_id => False
       end) /\
    (r <> None ->
     let sb := structuredBody_handle (document w) in
     (forall t,
        In (fill_call L t (unwrapped record) sb)
           (calls_on "structuredBody" w)) /\
     (forall g,
        g <> demographics_js ->
        let slice :=
          get (unwrapped record) (callee_section (Call_generator g)) in
        truthy slice = true ->
        In (generator_call L g slice true sb)
           (calls_on "structuredBody" w))).
Proof.
  intros Hr. rewrite (run_spec L record Hr).
  destruct (0 <? count_sections (unwrapped record))%nat eqn:Hc.
  - apply count_sections_truthy in Hc.
    eexists _, _. split; [reflexivity|].
    rewrite calls_on_structuredBody, with_body_structuredBody_handle.
    rewrite (body_calls_explicit L record Hc). cbv zeta.
    unfold generator_calls. split.
    + intros c Hin.
      destruct (truthy (get (unwrapped record) "payers")) eqn:H1;
      destruct (truthy (get (unwrapped record) "results")) eqn:H2;
      destruct (truthy (get (unwrapped record) "social_history")) eqn:H3;
      destruct (truthy (get (unwrapped record) "vitals")) eqn:H4;
      cbn [app In] in Hin;
      repeat (destruct Hin as [<-|Hin]; [cbn; auto|]);
      destruct Hin.
    + intros _. split.
      * intros t. destruct t; rewrite !in_app_iff; cbn [In]; tauto.
      * intros g Hg Hs.
        destruct g; try congruence; cbn [callee_section] in *;
          rewrite Hs, !in_app_iff; cbn [In]; tauto.
  - eexists _, _. split; [reflexivity|].
    rewrite calls_on_structuredBody_header_only. split.
    + intros c [].
    + intros Hn. now contradict Hn.
Qed.

Lemma record_to_filler_slice_to_generator_witness :
  nullish Sample.with_allergies_and_payers = false /\
  exists r w,
    run Sample.library Sample.with_allergies_and_payers = Ok r w /\
    forall c, In c (calls_on "structuredBody" w) ->
      match call_callee c with
      | Call_fillUsingTemplate _ =>
          call_data c = unwrapped Sample.with_allergies_and_payers
      | Call_generator _ =>
          call_data c
          = get (unwrapped Sample.with_allergies_and_payers)
                (callee_section (call_callee c)) /\
          truthy (call_data c) = true
      | Call_id => False
      end.
Proof.
  split; [reflexivity|].
  destruct (record_to_filler_slice_to_generator Sample.library
              Sample.with_allergies_and_payers eq_refl)
    as (r & w & Hrun & Hcalls & _).
  exists r, w. split; assumption.
Defined.

(** ** Single-section conversion against whole-document assembly *)

Lemma emitted_since_replay cs w : emitted_since w (replay cs w) = emitted cs.
Proof.
  unfold emitted_since. now rewrite replay_calls, drop_app_length.
Qed.

Lemma children_at_graft h new : forall e p,
  subtree h e = Some p ->
  children_at h (Some (graft h new e)) = children_of p ++ new.
Proof.
  unfold children_at. cbn [mbind option_bind].
  induction h as [|i h IH]; intros [t a x cs] p Hp.
  - injection Hp as <-. reflexivity.
  - cbn [subtree graft children_of] in *.
    rewrite list_lookup_alter_eq.
    destruct (cs !! i) as [c|]; [|discriminate].
    cbn [fmap option_fmap option_map].
    now apply IH.
Qed.

Lemma children_at_replay_one c w p :
  document w ≫= subtree (call_node c) = Some p ->
  children_at (call_node c) (document (replay [c] w))
  = children_at (call_node c) (document w) ++ call_emitted c.
Proof.
  intros Hp. cbn [replay fold_left document].
  destruct (document w) as [e|]; [|discriminate].
  cbn [fmap option_fmap option_map mbind option_bind] in *.
  rewrite (children_at_graft _ _ _ _ Hp).
  unfold children_at. cbn [mbind option_bind]. now rewrite Hp.
Qed.

Lemma section_fragment_with_body {R} (L : Library R) record name :
  section_fragment (with_body L record) name
  = emitted (List.filter
               (fun c => callee_section (call_callee c) =? name)
               (body_calls L record)).
Proof. unfold section_fragment. now rewrite calls_on_structuredBody. Qed.

(** The fragment of a section in a whole document, reproduced with [gen]
    alone.  When whole-document assembly creates a structuredBody, then for
    each of payers, results, social_history and vitals the markup it puts
    there for the section is the markup [gen] appends to a parent when called
    with the section's slice and the CCD flag on; for each of the seven
    sections filled from a template it is the markup [gen] appends when
    called with the entire unwrapped record, with either value of the flag.
    The markup [gen] appends is what the call it logs emitted, and the new
    last children of the parent.  Whether [gen] called with the slice of a
    template section, or with the flag off for a section generator, appends
    the same markup is up to the collaborator, which then receives other
    arguments than in whole-document assembly. *)
Theorem whole_document_fragment_is_what_gen_appends {R} (L : Library R)
    (record : value) :
  nullish record = false ->
  (0 < count_sections (unwrapped record))%nat ->
  exists s w,
    run L record = Ok (Some s) w /\
    forall (xmlDoc : handle) (w0 : world) (section_name : string)
           (CCD : bool),
      In section_name canonical_order ->
      filled_from_template section_name = true \/ CCD = true ->
      let d := if filled_from_template section_name then unwrapped record
               else get (unwrapped record) section_name in
      exists r w1,
        gen L d CCD xmlDoc section_name w0 = Ok r w1 /\
        emitted_since w0 w1 = section_fragment w section_name /\
        (document w0 ≫= subtree xmlDoc <> None ->
         children_at xmlDoc (document w1)
         = children_at xmlDoc (document w0)
           ++ section_fragment w section_name).
Proof.
  intros Hr Hc. apply Nat.ltb_lt in Hc.
  rewrite (run_spec L record Hr), Hc.
  apply count_sections_truthy in Hc.
  eexists _, _. split; [reflexivity|].
  intros xmlDoc w0 name CCD Hin Hflag d.
  rewrite gen_spec. eexists _, _. split; [reflexivity|].
  rewrite emitted_since_replay, section_fragment_with_body.
  rewrite (body_calls_explicit L record Hc). cbv zeta.
  assert (Hfrag :
    emitted (gen_calls L d CCD xmlDoc name)
    = emitted (List.filter
                 (fun c => callee_section (call_callee c) =? name)
                 ([fill_call L allergiesSectionEntriesRequired
                     (unwrapped record) (body_handle L record);
                   fill_call L encountersSectionEntriesRequired
                     (unwrapped record) (body_handle L record);
                   fill_call L immunizationsSectionEntriesRequired
                     (unwrapped record) (body_handle L record);
                   fill_call L medicationsSectionEntriesRequired
                     (unwrapped record) (body_handle L record)]
                  ++ generator_calls L payers_js
                       (get (unwrapped record) "payers")
                       (body_handle L record)
                  ++ [fill_call L planOfCareSectionEntriesRequired
                        (unwrapped record) (body_handle L record);
                      fill_call L problemsSectionEntriesRequired
                        (unwrapped record) (body_handle L record);
                      fill_call L proceduresSectionEntriesRequired
                        (unwrapped record) (body_handle L record)]
                  ++ generator_calls L results_js
                       (get (unwrapped record) "results")
                       (body_handle L record)
                  ++ generator_calls L social_history_js
                       (get (unwrapped record) "social_history")
                       (body_handle L record)
                  ++ generator_calls L vitals_js
                       (get (unwrapped record) "vitals")
                       (body_handle L record)))).
  { subst d. unfold generator_calls, gen_calls.
    cbn [In canonical_order] in Hin.
    repeat (destruct Hin as [<-|Hin];
      [destruct Hflag as [Hf| ->];
       [try (vm_compute in Hf; discriminate Hf)|];
       cbn [filled_from_template String.eqb Ascii.eqb Bool.eqb orb dispatch];
       rewrite ?Hc;
       destruct (truthy (get (unwrapped record) "payers"));
       destruct (truthy (get (unwrapped record) "results"));
       destruct (truthy (get (unwrapped record) "social_history"));
       destruct (truthy (get (unwrapped record) "vitals"));
       reflexivity|]).
    destruct Hin. }
  split; [exact Hfrag|].
  intros Hp. rewrite <- Hfrag.
  destruct (document w0 ≫= subtree xmlDoc) as [p|] eqn:Hp';
    [clear Hp|now contradict Hp].
  unfold gen_calls. destruct (truthy d).
  - destruct (dispatch name) as [[g|t|]|].
    + pose proof (children_at_replay_one (generator_call L g d CCD xmlDoc)
                    w0 p Hp') as H.
      cbn [call_node generator_call call_emitted] in H. rewrite H.
      unfold emitted. cbn. now rewrite app_nil_r.
    + pose proof (children_at_replay_one (fill_call L t d xmlDoc) w0 p Hp')
        as H.
      cbn [call_node fill_call call_emitted] in H. rewrite H.
      unfold emitted. cbn. now rewrite app_nil_r.
    + cbn. now rewrite app_nil_r.
    + cbn. now rewrite app_nil_r.
  - cbn. now rewrite app_nil_r.
Qed.

Lemma whole_document_fragment_is_what_gen_appends_witness :
  nullish Sample.with_allergies_and_payers = false /\
  (0 < count_sections (unwrapped Sample.with_allergies_and_payers))%nat /\
  exists s w,
    run Sample.library Sample.with_allergies_and_payers = Ok (Some s) w /\
    forall (xmlDoc : handle) (w0 : world) (section_name : string)
           (CCD : bool),
      In section_name canonical_order ->
      filled_from_template section_name = true \/ CCD = true ->
      let d := if filled_from_template section_name
               then unwrapped Sample.with_allergies_and_payers
               else get (unwrapped Sample.with_allergies_and_payers)
                        section_name in
      exists r w1,
        gen Sample.library d CCD xmlDoc section_name w0 = Ok r w1 /\
        emitted_since w0 w1 = section_fragment w section_name /\
        (document w0 ≫= subtree xmlDoc <> None ->
         children_at xmlDoc (document w1)
         = children_at xmlDoc (document w0)
           ++ section_fragment w section_name).
Proof.
  assert (H0 : (0 < count_sections
                     (unwrapped Sample.with_allergies_and_payers))%nat).
  { vm_compute. repeat constructor. }
  split; [reflexivity|]. split; [exact H0|].
  exact (whole_document_fragment_is_what_gen_appends Sample.library
           Sample.with_allergies_and_payers eq_refl H0).
Defined.

(** ** The structuredBody *)

Lemma run_nullish {R} (L : Library R) record :
  nullish record = true -> run L record = TypeError.
Proof.
  intros Hr. unfold run, genWholeCCDA, bind, prop. now rewrite Hr.
Qed.

(** A record whose only key is demographics gets the header and no
    structuredBody, and [genWholeCCDA] returns nothing. *)
Lemma only_demographics_is_header_only :
  exists w,
    run Sample.library Sample.only_demographics = Ok None w /\
    map tag_of (children_at [] (document w))
    = [ "realmCode"; "typeId"; "templateId"; "templateId"; "id"; "code";
        "title"; "effectiveTime"; "confidentialityCode"; "languageCode";
        "setId"; "versionNumber"; "recordTarget" ].
Proof. eexists. split; vm_compute; reflexivity. Qed.

(** C3: a record whose only top-level keys are meta and demographics gets a
    structuredBody all the same, because the loop that counts the sections
    counts the key meta; [genWholeCCDA] returns the serialized document. *)
Theorem meta_counts_as_a_section {R} (L : Library R)
    (meta demographics : value) :
  exists s w,
    run L (VObj [("meta", meta); ("demographics", demographics)])
    = Ok (Some s) w /\
    count_sections (VObj [("meta", meta); ("demographics", demographics)])
    = 1 /\
    node_tag (document w) (structuredBody_handle (document w))
    = Some "structuredBody".
Proof.
  rewrite run_spec by reflexivity.
  change (unwrapped (VObj [("meta", meta); ("demographics", demographics)]))
    with (VObj [("meta", meta); ("demographics", demographics)]).
  change (0 <? count_sections
                 (VObj [("meta", meta); ("demographics", demographics)]))%nat
    with true.
  eexists _, _. split; [reflexivity|]. split; [reflexivity|].
  rewrite with_body_structuredBody_handle. unfold node_tag.
  now rewrite with_body_structuredBody.
Qed.

(** C4: whenever whole-document assembly creates a structuredBody (it then
    returns the serialized document), the calls on the structuredBody node
    are, in this order, one call for each name of the canonical order
    allergies, encounters, immunizations, medications, payers, plan_of_care,
    problems, procedures, results, social_history, vitals that is filled from
    a template or has a truthy slice in the unwrapped record, whatever the
    order of the record's keys; each call emitted what its collaborator
    produces for the logged data; and the children of structuredBody are the
    markup of these calls, in the order of the calls. *)
Theorem sections_in_canonical_order {R} (L : Library R)
    (record : value) (s : string) (w : world) :
  run L record = Ok (Some s) w ->
  let data := unwrapped record in
  let on_body := calls_on "structuredBody" w in
  map (fun c => callee_section (call_callee c)) on_body
  = List.filter
      (fun name => filled_from_template name || truthy (get data name))
      [ "allergies"; "encounters"; "immunizations"; "medications"; "payers";
        "plan_of_care"; "problems"; "procedures"; "results";
        "social_history"; "vitals" ] /\
  Forall (fun c =>
            call_emitted c
            = match call_callee c with
              | Call_generator g =>
                  fst (section_generator L g (call_data c) (codeSystems L)
                         true)
              | Call_fillUsingTemplate t =>
                  js2xml_fillUsingTemplate L (call_data c) t
              | Call_id => libCCDAGen_id L (call_data c)
              end)
         on_body /\
  node_tag (document w) (structuredBody_handle (document w))
  = Some "structuredBody" /\
  children_at (structuredBody_handle (document w)) (document w)
  = concat (map call_emitted on_body).
Proof.
  intros Hrun data on_body. subst data on_body.
  destruct (nullish record) eqn:Hr;
    [rewrite run_nullish in Hrun by assumption; discriminate|].
  rewrite (run_spec L record Hr) in Hrun.
  destruct (0 <? count_sections (unwrapped record))%nat eqn:Hc;
    [|discriminate].
  injection Hrun as _ <-. apply count_sections_truthy in Hc.
  rewrite calls_on_structuredBody, with_body_structuredBody_handle.
  unfold node_tag, children_at. rewrite with_body_structuredBody.
  split; [|split; [|split; reflexivity]];
    rewrite (body_calls_explicit L record Hc); cbv zeta;
    unfold generator_calls; cbn [List.filter];
    repeat match goal with
           | |- context [filled_from_template ?n] =>
               let b := eval vm_compute in (filled_from_template n) in
               change (filled_from_template n) with b
           end;
    cbn [orb];
    destruct (truthy (get (unwrapped record) "payers"));
    destruct (truthy (get (unwrapped record) "results"));
    destruct (truthy (get (unwrapped record) "social_history"));
    destruct (truthy (get (unwrapped record) "vitals"));
    cbn [app]; first [reflexivity | repeat constructor].
Qed.

Lemma sections_in_canonical_order_witness :
  exists s w,
    run Sample.library Sample.with_allergies_and_payers = Ok (Some s) w /\
    map (fun c => callee_section (call_callee c))
        (calls_on "structuredBody" w)
    = [ "allergies"; "encounters"; "immunizations"; "medications"; "payers";
        "plan_of_care"; "problems"; "procedures" ] /\
    children_at (structuredBody_handle (document w)) (document w)
    = concat (map call_emitted (calls_on "structuredBody" w)).
Proof.
  eexists _, _.
  assert (Hrun : run Sample.library Sample.with_allergies_and_payers
                 = Ok (Some _) _) by (vm_compute; reflexivity).
  split; [exact Hrun|].
  destruct (sections_in_canonical_order Sample.library _ _ _ Hrun)
    as (Horder & _ & _ & Hchildren).
  split; [|exact Hchildren].
  rewrite Horder. reflexivity.
Defined.

(** ** The patientRole node *)

(** C5 fails as worded: a record without demographics gets no call of the
    demographics generator at all. *)
Lemma demographics_generator_not_called :
  exists r w,
    run Sample.library Sample.only_allergies = Ok r w /\
    List.filter
      (fun c => callee_section (call_callee c) =? "demographics") (calls w)
    = [].
Proof. eexists _, _. split; vm_compute; reflexivity. Qed.

(** C5, amended: for every record, whole-document assembly calls the
    id-block generator exactly once on the patientRole node, with the
    identifiers of the demographics slice (with the slice itself when it is
    falsy), and calls the demographics generator exactly once, on the
    patientRole node and in CCD mode, when the demographics slice is truthy,
    and not at all when it is falsy, however many other sections are present;
    the children of patientRole are the id block followed by the demographics
    markup. *)
Theorem one_id_block_and_at_most_one_demographics {R} (L : Library R)
    (record : value) :
  nullish record = false ->
  exists r w,
    run L record = Ok r w /\
    let demographics := get (unwrapped record) "demographics" in
    let pr := patientRole_handle L record in
    List.filter (fun c => callee_section (call_callee c) =? "id")
                (calls_on "patientRole" w)
    = [id_call L pr (and_then demographics "identifiers")] /\
    List.filter (fun c => callee_section (call_callee c) =? "demographics")
                (calls w)
    = (if truthy demographics
       then [generator_call L demographics_js demographics true pr]
       else []) /\
    document w ≫= subtree pr
    = Some (Element "patientRole" [] ""
              (libCCDAGen_id L (and_then demographics "identifiers")
               ++ (if truthy demographics
                   then fst (section_generator L demographics_js demographics
                               (codeSystems L) true)
                   else []))).
Proof.
  intros Hr. rewrite (run_spec L record Hr).
  assert (Hpatient :
    patient_calls L record
    = id_call L (patientRole_handle L record)
        (and_then (get (unwrapped record) "demographics") "identifiers")
      :: (if truthy (get (unwrapped record) "demographics")
          then [generator_call L demographics_js
                  (get (unwrapped record) "demographics") true
                  (patientRole_handle L record)]
          else [])).
  { unfold patient_calls, gen_calls. cbv zeta.
    now destruct (truthy (get (unwrapped record) "demographics")). }
  destruct (0 <? count_sections (unwrapped record))%nat eqn:Hc.
  - apply count_sections_truthy in Hc.
    eexists _, _. split; [reflexivity|]. cbv zeta.
    rewrite calls_on_patientRole_with_body, with_body_patientRole.
    change (calls (with_body L record))
      with ([id_call L [] (and_then (get record "meta") "identifiers")]
            ++ patient_calls L record ++ body_calls L record).
    rewrite (body_calls_explicit L record Hc). cbv zeta.
    rewrite Hpatient. unfold generator_calls.
    destruct (truthy (get (unwrapped record) "demographics"));
    destruct (truthy (get (unwrapped record) "payers"));
    destruct (truthy (get (unwrapped record) "results"));
    destruct (truthy (get (unwrapped record) "social_history"));
    destruct (truthy (get (unwrapped record) "vitals"));
    (split; [reflexivity|split; [reflexivity|]]);
    unfold emitted; cbn; now rewrite ?app_nil_r.
  - eexists _, _. split; [reflexivity|]. cbv zeta.
    rewrite calls_on_patientRole_header_only, header_only_patientRole.
    change (calls (header_only L record))
      with ([id_call L [] (and_then (get record "meta") "identifiers")]
            ++ patient_calls L record).
    rewrite Hpatient.
    destruct (truthy (get (unwrapped record) "demographics"));
    (split; [reflexivity|split; [reflexivity|]]);
    unfold emitted; cbn; now rewrite ?app_nil_r.
Qed.

Lemma one_id_block_and_at_most_one_demographics_witness :
  nullish Sample.with_allergies_and_payers = false /\
  exists r w,
    run Sample.library Sample.with_allergies_and_payers = Ok r w /\
    List.filter (fun c => callee_section (call_callee c) =? "demographics")
                (calls w)
    = [generator_call Sample.library demographics_js Sample.patient true
         (patientRole_handle Sample.library Sample.with_allergies_and_payers)].
Proof.
  split; [reflexivity|].
  destruct (one_id_block_and_at_most_one_demographics Sample.library
              Sample.with_allergies_and_payers eq_refl)
    as (r & w & Hrun & _ & Hdemographics & _).
  exists r, w. split; [exact Hrun|exact Hdemographics].
Defined.

(** ** The header *)

(** C6: for every record, the document is rooted at ClinicalDocument with
    the four namespace attributes, and its first children are realmCode,
    typeId, the two templateIds, the id block, code, title, effectiveTime,
    confidentialityCode, languageCode, setId and versionNumber, each with
    exactly the literal values of the header. *)
Theorem header_literals {R} (L : Library R) (record : value) :
  nullish record = false ->
  exists r w rest,
    run L record = Ok r w /\
    document w
    = Some (Element "ClinicalDocument"
              [ ("xmlns:xsi", "http://www.w3.org/2001/XMLSchema-instance");
                ("xmlns", "urn:hl7-org:v3");
                ("xmlns:cda", "urn:hl7-org:v3");
                ("xmlns:sdtc", "urn:hl7-org:sdtc") ]
              ""
              ([ Element "realmCode" [("code", "US")] "" [];
                 Element "typeId" [("root", "2.16.840.1.113883.1.3");
                                   ("extension", "POCD_HD000040")] "" [];
                 Element "templateId"
                         [("root", "2.16.840.1.113883.10.20.22.1.1")] "" [];
                 Element "templateId"
                         [("root", "2.16.840.1.113883.10.20.22.1.2")] "" [] ]
               ++ libCCDAGen_id L (and_then (get record "meta") "identifiers")
               ++ [ Element "code"
                            [("codeSystem", "2.16.840.1.113883.6.1");
                             ("codeSystemName", "LOINC");
                             ("code", "34133-9");
                             ("displayName", "Summarization of Episode Note")]
                            "" [];
                    Element "title" []
                            "Community Health and Hospitals: Health Summary"
                            [];
                    Element "effectiveTime" [("value", "TODO")] "" [];
                    Element "confidentialityCode"
                            [("code", "N");
                             ("codeSystem", "2.16.840.1.113883.5.25")] "" [];
                    Element "languageCode" [("code", "en-US")] "" [];
                    Element "setId"
                            [("extension", "sTT988");
                             ("root", "2.16.840.1.113883.19.5.99999.19")]
                            "" [];
                    Element "versionNumber" [("value", "1")] "" [] ]
               ++ rest)).
Proof.
  intros Hr. rewrite (run_spec L record Hr).
  destruct (0 <? count_sections (unwrapped record))%nat;
    eexists _, _, _; (split; [reflexivity|]);
    unfold with_body, header_only, header_fields, namespaces,
      header_before_id, header_after_id;
    cbn [document]; rewrite <- ?app_assoc; reflexivity.
Qed.

Lemma header_literals_witness :
  nullish Sample.wrapped = false /\
  exists r w,
    run Sample.library Sample.wrapped = Ok r w /\
    (attrs_of <$> document w)
    = Some [ ("xmlns:xsi", "http://www.w3.org/2001/XMLSchema-instance");
             ("xmlns", "urn:hl7-org:v3");
             ("xmlns:cda", "urn:hl7-org:v3");
             ("xmlns:sdtc", "urn:hl7-org:sdtc") ] /\
    take 2 (children_at [] (document w))
    = [ Element "realmCode" [("code", "US")] "" [];
        Element "typeId" [("root", "2.16.840.1.113883.1.3");
                          ("extension", "POCD_HD000040")] "" [] ].
Proof.
  split; [reflexivity|].
  destruct (header_literals Sample.library Sample.wrapped eq_refl)
    as (r & w & rest & Hrun & Hdoc).
  exists r, w. split; [exact Hrun|].
  unfold children_at. rewrite Hdoc. split; reflexivity.
Defined.

Lemma calls_on_root {R} (L : Library R) record :
  calls_on "ClinicalDocument" (with_body L record)
  = [id_call L [] (and_then (get record "meta") "identifiers")] /\
  calls_on "ClinicalDocument" (header_only L record)
  = [id_call L [] (and_then (get record "meta") "identifiers")].
Proof.
  unfold calls_on.
  change (calls (with_body L record))
    with ([id_call L [] (and_then (get record "meta") "identifiers")]
          ++ patient_calls L record ++ body_calls L record).
  change (calls (header_only L record))
    with ([id_call L [] (and_then (get record "meta") "identifiers")]
          ++ patient_calls L record).
  rewrite !List.filter_app.
  rewrite (filter_by_node _ _ "patientRole" _ _ (patient_calls_node L record))
    by (unfold node_tag; now rewrite with_body_patientRole).
  rewrite (filter_by_node _ _ "structuredBody" _ _ (body_calls_node L record))
    by (unfold node_tag; now rewrite with_body_structuredBody).
  rewrite (filter_by_node _ _ "patientRole" _ _ (patient_calls_node L record))
    by (unfold node_tag; now rewrite header_only_patientRole).
  split; reflexivity.
Qed.

(** C10: for every record, the setId and versionNumber children of the root
    element, the two that precede recordTarget, carry fixed literals whatever
    the input and its meta; and the one id block of the header is generated
    from the identifiers of the meta of the outer record, also when the
    record has a data wrapper: a meta inside the wrapper is not read. *)
Theorem setId_versionNumber_fixed_and_id_from_outer_meta {R} (L : Library R)
    (record : value) :
  nullish record = false ->
  exists r w before after,
    run L record = Ok r w /\
    children_at [] (document w)
    = before
      ++ [ Element "setId" [("extension", "sTT988");
                            ("root", "2.16.840.1.113883.19.5.99999.19")] "" [];
           Element "versionNumber" [("value", "1")] "" [] ]
      ++ recordTarget L record :: after /\
    calls_on "ClinicalDocument" w
    = [id_call L [] (and_then (get record "meta") "identifiers")].
Proof.
  intros Hr. rewrite (run_spec L record Hr).
  destruct (calls_on_root L record) as [Hb Hh].
  destruct (0 <? count_sections (unwrapped record))%nat.
  - exists (Some (toString L (document (with_body L record)))),
      (with_body L record),
      (header_before_id
       ++ libCCDAGen_id L (and_then (get record "meta") "identifiers")
       ++ take 5 header_after_id),
      [component L record].
    split; [reflexivity|]. split; [|exact Hb].
    unfold children_at, with_body, header_fields.
    cbn [document mbind option_bind subtree children_of].
    rewrite <- !app_assoc. reflexivity.
  - exists None, (header_only L record),
      (header_before_id
       ++ libCCDAGen_id L (and_then (get record "meta") "identifiers")
       ++ take 5 header_after_id),
      [].
    split; [reflexivity|]. split; [|exact Hh].
    unfold children_at, header_only, header_fields.
    cbn [document mbind option_bind subtree children_of].
    rewrite <- !app_assoc. reflexivity.
Qed.

Lemma setId_versionNumber_fixed_and_id_from_outer_meta_witness :
  nullish Sample.wrapped = false /\
  exists r w,
    run Sample.library Sample.wrapped = Ok r w /\
    map call_data (calls_on "ClinicalDocument" w) = [VArr [VStr "outer"]].
Proof.
  split; [reflexivity|].
  destruct (setId_versionNumber_fixed_and_id_from_outer_meta Sample.library
              Sample.wrapped eq_refl)
    as (r & w & before & after & Hrun & _ & Hid).
  exists r, w. split; [exact Hrun|]. now rewrite Hid.
Defined.

(** * Further properties of index.js *)

(** ** The returned value of genWholeCCDA *)

Lemma count_sections_zero data :
  (0 <? count_sections data)%nat = false
  <-> Forall (fun k => k = "demographics") (keys data).
Proof.
  unfold count_sections.
  induction (keys data) as [|k ks IH]; cbn [List.filter].
  - split; [constructor|reflexivity].
  - destruct (String.eqb_spec k "demographics") as [->|Hk]; cbn [negb].
    + rewrite IH. split; [now constructor|].
      intros H. now inversion H.
    + split; [discriminate|].
      intros H. inversion H; subst. now contradict Hk.
Qed.

(** [genWholeCCDA] returns nothing exactly when every key the for-in loop
    visits in the unwrapped record is "demographics" (in particular when
    there is no key at all); otherwise it returns the serialization of the
    finished document. *)
Theorem genWholeCCDA_returns_nothing_iff_only_demographics {R}
    (L : Library R) (record : value) :
  nullish record = false ->
  exists r w,
    run L record = Ok r w /\
    (r = None
     <-> Forall (fun k => k = "demographics") (keys (unwrapped record))) /\
    (forall s, r = Some s -> s = toString L (document w)).
Proof.
  intros Hr. rewrite (run_spec L record Hr).
  destruct (0 <? count_sections (unwrapped record))%nat eqn:Hc;
    eexists _, _; (split; [reflexivity|]); rewrite <- count_sections_zero, Hc.
  - split; [split; discriminate|]. now intros s [= <-].
  - split; [split; reflexivity|]. discriminate.
Qed.

Lemma genWholeCCDA_returns_nothing_iff_only_demographics_witness :
  nullish Sample.only_allergies = false /\
  exists r w,
    run Sample.library Sample.only_allergies = Ok r w /\
    (r = None
     <-> Forall (fun k => k = "demographics")
                (keys (unwrapped Sample.only_allergies))) /\
    (forall s, r = Some s -> s = toString Sample.library (document w)).
Proof.
  split; [reflexivity|].
  exact (genWholeCCDA_returns_nothing_iff_only_demographics Sample.library
           Sample.only_allergies eq_refl).
Defined.

(** The assembler's own nodes after the header fields: recordTarget alone
    when nothing is returned; recordTarget and then one component, whose only
    child is structuredBody, when the document is returned. *)
Theorem component_only_with_returned_document {R} (L : Library R)
    (record : value) :
  nullish record = false ->
  exists r w,
    run L record = Ok r w /\
    let fields := length (header_fields L (get record "meta")) in
    let after_fields := drop fields (children_at [] (document w)) in
    (r = None -> map tag_of after_fields = ["recordTarget"]) /\
    (r <> None ->
     map tag_of after_fields = ["recordTarget"; "component"] /\
     map tag_of (children_at [S fields] (document w)) = ["structuredBody"]) /\
    map tag_of (children_at [fields] (document w)) = ["patientRole"].
Proof.
  intros Hr. rewrite (run_spec L record Hr).
  destruct (0 <? count_sections (unwrapped record))%nat;
    eexists _, _; (split; [reflexivity|]); cbv zeta;
    unfold children_at, with_body, header_only;
    cbn [document mbind option_bind subtree children_of].
  - rewrite <- app_assoc, drop_app_length. cbn [app].
    rewrite (list_lookup_middle _ _ _ _ eq_refl).
    rewrite lookup_app_r by lia.
    replace (S (length (header_fields L (get record "meta")))
             - length (header_fields L (get record "meta"))) with 1 by lia.
    split; [discriminate|]. split; [|reflexivity].
    intros _. split; reflexivity.
  - rewrite drop_app_length.
    rewrite (list_lookup_middle _ [] _ _ eq_refl).
    split; [reflexivity|]. split; [|reflexivity].
    intros Hn. now contradict Hn.
Qed.

Lemma component_only_with_returned_document_witness :
  nullish Sample.only_demographics = false /\
  exists r w,
    run Sample.library Sample.only_demographics = Ok r w /\
    let fields :=
      length (header_fields Sample.library
                (get Sample.only_demographics "meta")) in
    let after_fields := drop fields (children_at [] (document w)) in
    (r = None -> map tag_of after_fields = ["recordTarget"]) /\
    (r <> None ->
     map tag_of after_fields = ["recordTarget"; "component"] /\
     map tag_of (children_at [S fields] (document w)) = ["structuredBody"]) /\
    map tag_of (children_at [fields] (document w)) = ["patientRole"].
Proof.
  split; [reflexivity|].
  exact (component_only_with_returned_document Sample.library
           Sample.only_demographics eq_refl).
Defined.

(** ** What a run depends on *)

(** A run reads the record only through its meta and through the unwrapped
    data: two records with the same [meta] and the same unwrapped data give
    the same result, document and calls.  In particular, sections written
    beside a truthy [data] wrapper are ignored.  (What is inside the wrapper
    is not: a [meta] key there is part of the unwrapped data, is counted by
    the for-in loop and is handed to the filler with the rest.) *)
Theorem run_reads_meta_and_unwrapped_data {R} (L : Library R)
    (record1 record2 : value) :
  nullish record1 = false ->
  nullish record2 = false ->
  get record1 "meta" = get record2 "meta" ->
  unwrapped record1 = unwrapped record2 ->
  run L record1 = run L record2.
Proof.
  intros H1 H2 Hm Hu.
  rewrite (run_spec L record1 H1), (run_spec L record2 H2).
  unfold with_body, header_only, component, recordTarget, body_calls,
    patient_calls, body_handle, patientRole_handle.
  now rewrite Hm, Hu.
Qed.

Lemma run_reads_meta_and_unwrapped_data_witness :
  nullish Sample.wrapped = false /\
  nullish Sample.wrapped_with_outer_sections = false /\
  get Sample.wrapped "meta" = get Sample.wrapped_with_outer_sections "meta" /\
  unwrapped Sample.wrapped = unwrapped Sample.wrapped_with_outer_sections /\
  run Sample.library Sample.wrapped
  = run Sample.library Sample.wrapped_with_outer_sections.
Proof.
  split; [reflexivity|]. split; [reflexivity|].
  split; [reflexivity|]. split; [reflexivity|].
  apply (run_reads_meta_and_unwrapped_data Sample.library); reflexivity.
Defined.

(** [genWholeCCDA] starts from a new document: run after anything else, it
    returns the same value and leaves the same document as on its own; it
    fails exactly when it fails on its own. *)
Theorem genWholeCCDA_builds_a_new_document {R} (L : Library R)
    (record : value) (w : world) :
  genWholeCCDA L record w
  = match run L record with
    | Ok r w' => Ok r {| document := document w';
                         calls := calls w ++ calls w' |}
    | TypeError => TypeError
    end.
Proof.
  destruct (nullish record) eqn:Hr.
  { rewrite (run_nullish L record Hr).
    unfold genWholeCCDA, bind, prop. now rewrite Hr. }
  rewrite (run_spec L record Hr).
  pose proof (unwrapped_not_nullish record Hr) as Hd.
  unfold genWholeCCDA.
  step prop_Ok. step prop_Ok. fold (unwrapped record).
  step (header_spec L). cbv iota beta.
  step prop_Ok. step and_then_Ok.
  unfold id. step appended_replay.
  change (sectionNames_at 1) with "demographics".
  step prop_Ok. step (gen_spec L).
  rewrite <- replay_app.
  cbn [app]. fold (id_call L (patientRole_handle L record)
    (and_then (get (unwrapped record) "demographics") "identifiers")).
  fold (patientRole_handle L record). fold (patient_calls L record).
  rewrite replay_under_last
    by (apply Forall_cons; split; [reflexivity|apply gen_calls_node]).
  cbn [app calls]. fold (recordTarget L record).
  destruct (0 <? count_sections (unwrapped record))%nat.
  - step node_root. step node_last. cbn [app length].
    step (for_each_gen_section L).
    rewrite replay_under_last by apply section_calls_node.
    rewrite length_app, Nat.add_1_r.
    unfold with_body. cbn [document calls]. now rewrite <- !app_assoc.
  - unfold header_only. cbn [document calls]. now rewrite <- !app_assoc.
Qed.

(** ** The calls of a run *)

Lemma gen_calls_in_CCD_mode {R} (L : Library R) d n name :
  Forall (fun c => call_callee c <> Call_id /\
                   truthy (call_data c) = true /\
                   (forall g, call_callee c = Call_generator g ->
                              call_CCD c = Some true))
         (gen_calls L d true n name).
Proof.
  unfold gen_calls. destruct (truthy d) eqn:Hd; [|constructor].
  destruct (dispatch name) as [[g|t|]|]; repeat constructor;
    cbn; try discriminate; auto.
Qed.

Lemma body_calls_in_CCD_mode {R} (L : Library R) data sb l :
  Forall (fun c => call_callee c <> Call_id /\
                   truthy (call_data c) = true /\
                   (forall g, call_callee c = Call_generator g ->
                              call_CCD c = Some true))
         (flat_map (section_calls L data sb) l).
Proof.
  induction l as [|i l IH]; [constructor|].
  cbn [flat_map]. apply Forall_app. split; [apply gen_calls_in_CCD_mode|].
  exact IH.
Qed.

(** Every run begins with the two calls of the id-block generator, on the
    root element and then on patientRole; every later call is a call of a
    section generator or of the template filler, its data is truthy, and a
    section generator is always called in CCD mode. *)
Theorem id_blocks_first_then_sections_with_data {R} (L : Library R)
    (record : value) :
  nullish record = false ->
  exists r w on_root on_patientRole later,
    run L record = Ok r w /\
    calls w = on_root :: on_patientRole :: later /\
    call_callee on_root = Call_id /\ call_node on_root = [] /\
    call_callee on_patientRole = Call_id /\
    node_tag (document w) (call_node on_patientRole) = Some "patientRole" /\
    Forall (fun c => call_callee c <> Call_id /\
                     truthy (call_data c) = true /\
                     (forall g, call_callee c = Call_generator g ->
                                call_CCD c = Some true))
           later.
Proof.
  intros Hr. rewrite (run_spec L record Hr).
  destruct (0 <? count_sections (unwrapped record))%nat.
  - eexists _, _, _, _, _. split; [reflexivity|].
    split; [reflexivity|]. repeat (split; [reflexivity|]).
    split.
    + unfold node_tag. cbn [call_node id_call].
      now rewrite with_body_patientRole.
    + apply Forall_app. split; [apply gen_calls_in_CCD_mode|].
      apply body_calls_in_CCD_mode.
  - eexists _, _, _, _, _. split; [reflexivity|].
    split; [reflexivity|]. repeat (split; [reflexivity|]).
    split.
    + unfold node_tag. cbn [call_node id_call].
      now rewrite header_only_patientRole.
    + apply gen_calls_in_CCD_mode.
Qed.

Lemma id_blocks_first_then_sections_with_data_witness :
  nullish Sample.with_allergies_and_payers = false /\
  exists r w on_root on_patientRole later,
    run Sample.library Sample.with_allergies_and_payers = Ok r w /\
    calls w = on_root :: on_patientRole :: later /\
    call_callee on_root = Call_id /\ call_node on_root = [] /\
    call_callee on_patientRole = Call_id /\
    node_tag (document w) (call_node on_patientRole) = Some "patientRole" /\
    Forall (fun c => call_callee c <> Call_id /\
                     truthy (call_data c) = true /\
                     (forall g, call_callee c = Call_generator g ->
                                call_CCD c = Some true))
           later.
Proof.
  split; [reflexivity|].
  exact (id_blocks_first_then_sections_with_data Sample.library
           Sample.with_allergies_and_payers eq_refl).
Defined.

(** ** The dispatch of gen against the registry and the loop *)

Lemma replay_one_changes c w : replay [c] w <> w.
Proof.
  intros H. apply (f_equal (fun w => length (calls w))) in H.
  cbn in H. rewrite length_app in H. cbn in H. lia.
Qed.

(** [gen] calls at most one collaborator.  When the data is truthy and the
    section name is one of the twelve names the registry binds to the indices
    1 to 12, a completed activation of [gen] has made exactly one call, of the
    collaborator of that section, with the data and the node it was given.
    Otherwise, that is for falsy data, for the registry's "null" and for any
    other name, [gen] calls no collaborator and completes with nothing
    changed. *)
Theorem gen_calls_collaborator_iff_data_and_registered {R} (L : Library R)
    (d : value) (CCD : bool) (xmlDoc : handle) (section_name : string)
    (w : world) :
  ((truthy d = true /\ In section_name (map snd sectionNames) /\
    section_name <> "null") ->
   forall r w',
     gen L d CCD xmlDoc section_name w = Ok r w' ->
     exists c,
       w' = replay [c] w /\ call_data c = d /\ call_node c = xmlDoc /\
       callee_section (call_callee c) = section_name) /\
  (~ (truthy d = true /\ In section_name (map snd sectionNames) /\
      section_name <> "null") ->
   exists r, gen L d CCD xmlDoc section_name w = Ok r w).
Proof.
  rewrite gen_spec. unfold gen_calls. split.
  - intros (Hd & Hin & Hnull) r w' [= _ <-]. rewrite Hd. cbn in Hin.
    destruct Hin as [<-|Hin]; [now contradict Hnull|].
    repeat (destruct Hin as [<-|Hin];
            [eexists; repeat split; reflexivity|]).
    destruct Hin.
  - intros Hn. eexists. f_equal.
    destruct (truthy d); [|reflexivity].
    unfold dispatch.
    repeat match goal with
           | |- context [section_name =? ?k] =>
               destruct (String.eqb_spec section_name k) as [->|_];
               [exfalso; apply Hn; repeat split;
                [cbn; tauto|discriminate]|]
           end.
    reflexivity.
Qed.

(** The CCD flag reaches the section generators only: for every other
    section name, known or not, [gen] does the same in both modes. *)
Theorem gen_ignores_CCD_outside_generators {R} (L : Library R)
    (d : value) (xmlDoc : handle) (section_name : string) (w : world) :
  ~ In section_name bespoke_sections ->
  gen L d true xmlDoc section_name w = gen L d false xmlDoc section_name w.
Proof.
  intros Hn. rewrite !gen_spec.
  unfold gen_completion, gen_calls, dispatch.
  destruct (truthy d); [|reflexivity].
  repeat match goal with
         | |- context [section_name =? ?k] =>
             destruct (String.eqb_spec section_name k) as [->|_];
             [first [reflexivity|exfalso; apply Hn; cbn; tauto]|]
         end.
  reflexivity.
Qed.

Lemma gen_ignores_CCD_outside_generators_witness :
  ~ In "problems" bespoke_sections /\
  gen Sample.library Sample.two_allergies true Standalone.parent "problems"
      Standalone.before
  = gen Sample.library Sample.two_allergies false Standalone.parent
        "problems" Standalone.before.
Proof.
  assert (Hn : ~ In "problems" bespoke_sections).
  { cbn. intros H. repeat (destruct H as [H|H]; [discriminate H|]).
    exact H. }
  split; [exact Hn|].
  exact (gen_ignores_CCD_outside_generators Sample.library
           Sample.two_allergies Standalone.parent "problems"
           Standalone.before Hn).
Defined.

(** The test of the loop in [genWholeCCDA] and the chain in [gen] agree: the
    names for which the loop hands over the entire record are exactly the
    names for which [gen] calls the template filler and completes without a
    value. *)
Theorem loop_test_selects_the_filler_branches {R} (L : Library R)
    (d : value) (CCD : bool) (xmlDoc : handle) (section_name : string)
    (w : world) :
  truthy d = true ->
  (filled_from_template section_name = true
   <-> exists t,
         gen L d CCD xmlDoc section_name w
         = Ok Fall_through (replay [fill_call L t d xmlDoc] w)).
Proof.
  intros Hd. rewrite gen_spec.
  unfold gen_completion, gen_calls, filled_from_template, dispatch.
  rewrite Hd.
  repeat match goal with
         | |- context [section_name =? ?k] =>
             destruct (String.eqb_spec section_name k) as [->|_];
             [cbn;
              first [split; [intros _; eexists; reflexivity|reflexivity]
                    |split; [discriminate|intros [t Ht]; discriminate Ht]]|]
         end.
  cbn. split; [discriminate|].
  intros [t Ht]. injection Ht as Ht. symmetry in Ht.
  destruct (replay_one_changes (fill_call L t d xmlDoc) w Ht).
Qed.

Lemma loop_test_selects_the_filler_branches_witness :
  truthy Sample.two_allergies = true /\
  (filled_from_template "plan_of_care" = true
   <-> exists t,
         gen Sample.library Sample.two_allergies true Standalone.parent
             "plan_of_care" Standalone.before
         = Ok Fall_through
              (replay [fill_call Sample.library t Sample.two_allergies
                         Standalone.parent] Standalone.before)).
Proof.
  split; [reflexivity|].
  exact (loop_test_selects_the_filler_branches Sample.library
           Sample.two_allergies true Standalone.parent "plan_of_care"
           Standalone.before eq_refl).
Defined.

(** In a run that returns the document the template filler is called exactly
    seven times, once per template in the order of the registry, each time on
    structuredBody and with the entire unwrapped record, whether or not the
    record has data for the section; in a run that returns nothing it is not
    called. *)
Theorem filler_called_once_per_template {R} (L : Library R)
    (record : value) :
  nullish record = false ->
  exists r w,
    run L record = Ok r w /\
    List.filter (fun c => match call_callee c with
                          | Call_fillUsingTemplate _ => true
                          | _ => false
                          end) (calls w)
    = match r with
      | Some _ =>
          map (fun t => fill_call L t (unwrapped record)
                          (structuredBody_handle (document w)))
              [ allergiesSectionEntriesRequired;
                encountersSectionEntriesRequired;
                immunizationsSectionEntriesRequired;
                medicationsSectionEntriesRequired;
                planOfCareSectionEntriesRequired;
                problemsSectionEntriesRequired;
                proceduresSectionEntriesRequired ]
      | None => []
      end.
Proof.
  intros Hr. rewrite (run_spec L record Hr).
  assert (Hpatient :
    List.filter (fun c => match call_callee c with
                          | Call_fillUsingTemplate _ => true
                          | _ => false
                          end)
      (id_call L [] (and_then (get record "meta") "identifiers")
       :: patient_calls L record) = []).
  { unfold patient_calls, gen_calls. cbv zeta.
    now destruct (truthy (get (unwrapped record) "demographics")). }
  destruct (0 <? count_sections (unwrapped record))%nat eqn:Hc.
  - apply count_sections_truthy in Hc.
    eexists _, _. split; [reflexivity|].
    rewrite with_body_structuredBody_handle.
    unfold with_body at 1. cbn [calls].
    rewrite List.filter_app, Hpatient.
    rewrite (body_calls_explicit L record Hc). cbv zeta.
    unfold generator_calls.
    destruct (truthy (get (unwrapped record) "payers"));
    destruct (truthy (get (unwrapped record) "results"));
    destruct (truthy (get (unwrapped record) "social_history"));
    destruct (truthy (get (unwrapped record) "vitals"));
    reflexivity.
  - eexists _, _. split; [reflexivity|]. exact Hpatient.
Qed.

Lemma filler_called_once_per_template_witness :
  nullish Sample.wrapped_with_outer_sections = false /\
  exists r w,
    run Sample.library Sample.wrapped_with_outer_sections = Ok r w /\
    map (fun c => callee_section (call_callee c))
        (List.filter (fun c => match call_callee c with
                               | Call_fillUsingTemplate _ => true
                               | _ => false
                               end) (calls w))
    = template_sections.
Proof.
  split; [reflexivity|].
  destruct (filler_called_once_per_template Sample.library
              Sample.wrapped_with_outer_sections eq_refl)
    as (r & w & Hrun & Hfill).
  exists r, w. split; [exact Hrun|].
  rewrite Hfill. vm_compute in Hrun. injection Hrun as <- _. reflexivity.
Defined.
